(** * Claims composition, composition root and lambda handlers

    A shallow embedding of the TypeScript sources of the serverless API:

    - the class [BaseErrorCodes] (the codes of the error responses),
    - the class [JsonFileReader] (method [readData]),
    - the class [ClaimsProvider] (the composition of the claims),
    - the class [BaseCompositionRoot] (the registration of dependencies),
    - the lambda [baseHandler] of the company transactions,
    - the class [MiddlewareHelper] (method [enrichApiOperation]),

    together with the JavaScript built-ins they call: [parseInt], [isNaN],
    [<=], [String.prototype.split], truthiness, property access and
    [instanceof Error].

    Conventions.
    - A JavaScript string is a [string]; its characters stand for code units
      in the range 0..255.
    - A JavaScript number is a [JS.number]: [NaN], the two infinities, and
      the signed integers (so that [-0] is told apart from [+0]).  These are
      all the values [parseInt] can return.
    - Code that may throw returns a [Result]; code that also acts on the
      world outside of it (file system, container, injected callbacks) is
      written in the state and exception monad [M], which keeps a record of
      the calls made to the outside.
    - Classes and functions that the sources use but do not contain are
      parameters of the sections, or are modelled from the specification,
      as their comments say.

    The definitions come first, the properties after them. *)

From Stdlib Require Import ZArith NArith Ascii String List Lia Bool.
From stdpp Require Import base option gmap strings list.

Set Warnings "-register-all".

Open Scope string_scope.

(* ===================================================================== *)
(** * JavaScript values and built-ins *)
(* ===================================================================== *)

Module JS.

(** The Number values needed here.  [Finite neg m] is the integer [m]
    with its sign bit: [Finite true 0] is [-0]. *)
Inductive number :=
| NaN
| Infinity (neg : bool)
| Finite (neg : bool) (m : N).

Definition zero : number := Finite false 0.

(** [isNaN(x)] on a Number. *)
Definition isNaN (x : number) : bool :=
  match x with NaN => true | _ => false end.

(** [x <= y] on Numbers: false as soon as one side is [NaN]. *)
Definition le (x y : number) : bool :=
  match x, y with
  | NaN, _ | _, NaN => false
  | Infinity true, _ => true
  | _, Infinity false => true
  | Infinity false, _ => false
  | _, Infinity true => false
  | Finite n1 m1, Finite n2 m2 =>
      ((if n1 then - Z.of_N m1 else Z.of_N m1)
         <=? (if n2 then - Z.of_N m2 else Z.of_N m2))%Z
  end.

(** ToBoolean on a Number: [+0], [-0] and [NaN] are falsy. *)
Definition number_truthy (x : number) : bool :=
  match x with
  | NaN => false
  | Infinity _ => true
  | Finite _ m => negb (m =? 0)%N
  end.

(** The Number value for a non-negative mathematical integer: exact below
    2^53, otherwise rounded to 53 significant bits, ties to even; [None]
    when the rounded value leaves the range of a double. *)
Definition roundToDouble (m : N) : option N :=
  if (m <? 2 ^ 53)%N then Some m
  else
    let e := (N.log2 m - 52)%N in
    let q := N.shiftr m e in
    let r := (m - N.shiftl q e)%N in
    let half := N.shiftl 1 (e - 1) in
    let q' := if (half <? r)%N || ((r =? half)%N && N.odd q)
              then (q + 1)%N else q in
    let v := N.shiftl q' e in
    if (v <? 2 ^ 1024)%N then Some v else None.

(** WhiteSpace and LineTerminator code units below 256: TAB, LF, VT, FF,
    CR, SP and NBSP. *)
Definition isWhiteSpace (c : ascii) : bool :=
  let n := N_of_ascii c in
  ((9 <=? n) && (n <=? 13) || (n =? 32) || (n =? 160))%N.

Fixpoint trimStart (s : string) : string :=
  match s with
  | String c r => if isWhiteSpace c then trimStart r else s
  | EmptyString => EmptyString
  end.

(** The value of a code unit as a digit: 0-9, then a-z and A-Z for 10-35. *)
Definition digitValue (c : ascii) : option N :=
  let n := N_of_ascii c in
  if ((48 <=? n) && (n <=? 57))%N then Some (n - 48)%N
  else if ((97 <=? n) && (n <=? 122))%N then Some (n - 87)%N
  else if ((65 <=? n) && (n <=? 90))%N then Some (n - 55)%N
  else None.

(** The longest prefix of [s] made of radix-[R] digits, as digit values. *)
Fixpoint radixDigits (R : N) (s : string) : list N :=
  match s with
  | String c r =>
      match digitValue c with
      | Some d => if (d <? R)%N then d :: radixDigits R r else []
      | None => []
      end
  | EmptyString => []
  end.

Definition mathInt (R : N) (ds : list N) : N :=
  fold_left (fun acc d => (acc * R + d)%N) ds 0%N.

(** ToInt32 of an integer. *)
Definition toInt32 (z : Z) : Z :=
  ((z + 2 ^ 31) mod 2 ^ 32 - 2 ^ 31)%Z.

Definition stripSign (s : string) : bool * string :=
  match s with
  | String "-" r => (true, r)
  | String "+" r => (false, r)
  | _ => (false, s)
  end.

Definition strip0x (s : string) : option string :=
  match s with
  | String "0" (String "x" r) => Some r
  | String "0" (String "X" r) => Some r
  | _ => None
  end.

(** [parseInt(string, radix)], following the steps of ECMA-262: trim the
    leading white space, read the sign, settle the radix, take the longest
    prefix of digits, and convert. *)
Definition parseInt (s : string) (radix : Z) : number :=
  let '(neg, S1) := stripSign (trimStart s) in
  let R := toInt32 radix in
  if negb (R =? 0)%Z && ((R <? 2)%Z || (36 <? R)%Z) then NaN
  else
    let stripPrefix := (R =? 0)%Z || (R =? 16)%Z in
    let R1 := if (R =? 0)%Z then 10%Z else R in
    let '(R2, S2) :=
      match (if stripPrefix then strip0x S1 else None) with
      | Some r => (16%N, r)
      | None => (Z.to_N R1, S1)
      end in
    match radixDigits R2 S2 with
    | [] => NaN
    | ds =>
        match roundToDouble (mathInt R2 ds) with
        | Some m => Finite neg m
        | None => Infinity neg
        end
    end.

(** [s.split(sep)] for a separator of one code unit: the pieces between
    the occurrences of [sep], in order.  The result is never empty: a string
    without [sep] (the empty string too) gives one piece. *)
Fixpoint split (s : string) (sep : ascii) : list string :=
  match s with
  | EmptyString => [EmptyString]
  | String c r =>
      if Ascii.eqb c sep then EmptyString :: split r sep
      else match split r sep with
           | h :: t => String c h :: t
           | [] => [String c EmptyString]
           end
  end.

(** [pieces.join(sep)]. *)
Fixpoint join (pieces : list string) (sep : ascii) : string :=
  match pieces with
  | [] => EmptyString
  | [p] => p
  | p :: rest => p ++ String sep (join rest sep)
  end.

Fixpoint contains (s : string) (c : ascii) : bool :=
  match s with
  | EmptyString => false
  | String d r => Ascii.eqb d c || contains r c
  end.

(** The decimal digits of a string, when it is made of decimal digits only. *)
Fixpoint decimalDigits (s : string) : option (list N) :=
  match s with
  | EmptyString => Some []
  | String c r =>
      let n := N_of_ascii c in
      if ((48 <=? n) && (n <=? 57))%N then
        option_map (cons (n - 48)%N) (decimalDigits r)
      else None
  end.

(** Values of type [any], as far as the sources look into them.  An object
    carries whether [instanceof Error] holds for it and its properties. *)
Inductive value :=
| Undefined
| Null
| Bool (b : bool)
| Num (n : number)
| Str (s : string)
| Object (isError : bool) (props : list (string * value)).

(** ToBoolean. *)
Definition truthy (v : value) : bool :=
  match v with
  | Undefined | Null => false
  | Bool b => b
  | Num n => number_truthy n
  | Str s => negb (String.eqb s "")
  | Object _ _ => true
  end.

(** The own property [name] of an object. *)
Fixpoint ownProp (props : list (string * value)) (name : string)
  : option value :=
  match props with
  | [] => None
  | (k, v) :: rest => if String.eqb k name then Some v else ownProp rest name
  end.

(** What [Error.prototype] gives to an error without the own property. *)
Definition errorPrototype (name : string) : value :=
  if String.eqb name "message" then Str ""
  else if String.eqb name "name" then Str "Error"
  else Undefined.

(** [o.name] on an object, for a [name] that [Object.prototype] does not
    have: the own property, else the one of [Error.prototype] for an
    error, else [undefined]. *)
Definition lookupProp (isError : bool) (props : list (string * value))
    (name : string) : value :=
  match ownProp props name with
  | Some v => v
  | None => if isError then errorPrototype name else Undefined
  end.

(** [e instanceof Error]. *)
Definition instanceofError (v : value) : bool :=
  match v with
  | Object isError _ => isError
  | _ => false
  end.

Definition TypeError (message : string) : value :=
  Object true [("name", Str "TypeError"); ("message", Str message)].

(** [v.name] where [name] is not a property of the primitive wrappers:
    reading a property of [undefined] or [null] throws a TypeError, a
    primitive has no such property. *)
Definition getProp (v : value) (name : string) : value + value :=
  match v with
  | Undefined | Null =>
      inl (TypeError ("Cannot read properties of undefined or null (reading '"
                        ++ name ++ "')"))
  | Object isError props => inr (lookupProp isError props name)
  | _ => inr Undefined
  end.

End JS.

(* ===================================================================== *)
(** * Results, exceptions and the monad of effectful code *)
(* ===================================================================== *)

(** What a call that may throw gives back. *)
Inductive Result (E A : Type) : Type :=
| Returned (a : A)
| Thrown (e : E).
Arguments Returned {E A} a.
Arguments Thrown {E A} e.

Module ClientError.
(** Modelled from the spec: the class [ClientError] is not among the
    sources.  By section 7 of the specification a client error has a 4xx
    status, a code and the detail that is returned to the caller. *)
Record t := mk { statusCode : Z; errorCode : string; message : string }.
End ClientError.

Module ServerError.
(** Modelled from the spec: the class [ServerError] is not among the
    sources.  By section 7 of the specification a server error has a code
    and the detail kept for the operator; the fields are the arguments of
    the factory and of [setDetails]. *)
Record t := mk {
  errorCode : string;
  message : string;
  stack : JS.value;
  details : JS.value
}.
(** [error.setDetails(details)] *)
Definition setDetails (e : t) (d : JS.value) : t :=
  mk (errorCode e) (message e) (stack e) d.
End ServerError.

Module ErrorFactory.
(** Modelled from the spec: [ErrorFactory] is not among the sources.
    [createClientError(statusCode, errorCode, userMessage)] makes the client
    error of its arguments. *)
Definition createClientError (status : Z) (code msg : string) : ClientError.t :=
  ClientError.mk status code msg.
(** Modelled from the spec: [createServerError(errorCode, userMessage,
    stack)] makes the server error of its arguments, without details. *)
Definition createServerError (code msg : string) (stack : JS.value)
  : ServerError.t :=
  ServerError.mk code msg stack JS.Undefined.
End ErrorFactory.

(** Everything the modelled functions can throw. *)
Inductive Exception :=
| ClientErrorEx (e : ClientError.t)
| ServerErrorEx (e : ServerError.t)
| JsThrown (v : JS.value).

(** [v.name], throwing what the access throws. *)
Definition getProperty (v : JS.value) (name : string)
  : Result Exception JS.value :=
  match JS.getProp v name with
  | inl typeError => Thrown (JsThrown typeError)
  | inr x => Returned x
  end.

(** The world a function runs in: [ext] is the state of everything outside
    the sources (file system, network, container, injected callbacks), and
    [calls] is the record, oldest first, of the calls the function made to
    the outside. *)
Record World (Ext Ev : Type) := mkWorld { ext : Ext; calls : list Ev }.
Arguments mkWorld {Ext Ev} ext calls.
Arguments ext {Ext Ev} w.
Arguments calls {Ext Ev} w.

(** A function of the outside: it may change [Ext], return or throw. *)
Definition External (Ext E A : Type) : Type := Ext -> Result E A * Ext.

(** A modelled function: it may change the world, return or throw. *)
Definition M (Ext Ev E A : Type) : Type :=
  World Ext Ev -> Result E A * World Ext Ev.

Section Monad.
Context {Ext Ev E : Type}.

Definition ret {A} (a : A) : M Ext Ev E A := fun w => (Returned a, w).

Definition throw {A} (e : E) : M Ext Ev E A := fun w => (Thrown e, w).

Definition bind {A B} (m : M Ext Ev E A) (k : A -> M Ext Ev E B)
  : M Ext Ev E B :=
  fun w =>
    match m w with
    | (Returned a, w') => k a w'
    | (Thrown e, w') => (Thrown e, w')
    end.

(** A value or exception computed without touching the world. *)
Definition liftResult {A} (r : Result E A) : M Ext Ev E A := fun w => (r, w).

(** A call to the outside: note the call, then let the callee act. *)
Definition call {A} (ev : Ev) (f : External Ext E A) : M Ext Ev E A :=
  fun w =>
    let '(r, x) := f (ext w) in
    (r, mkWorld x (calls w ++ [ev])).

(** [try { body } catch (e) { handler e }] *)
Definition tryCatch {E' A} (body : M Ext Ev E' A) (handler : E' -> M Ext Ev E A)
  : M Ext Ev E A :=
  fun w =>
    match body w with
    | (Returned a, w') => (Returned a, w')
    | (Thrown e, w') => handler e w'
    end.

End Monad.

Notation "'let*' x ':=' m 'in' k" := (bind m (fun x => k))
  (at level 10, x name, m at level 100, k at level 200).
Notation "'do' m 'in' k" := (bind m (fun _ => k))
  (at level 10, m at level 100, k at level 200).

(** The pure part of the same: [Result] alone. *)
Definition rbind {E A B} (r : Result E A) (k : A -> Result E B) : Result E B :=
  match r with
  | Returned a => k a
  | Thrown e => Thrown e
  end.
Notation "'let?' x ':=' r 'in' k" := (rbind r (fun x => k))
  (at level 10, x name, r at level 100, k at level 200).

(* ===================================================================== *)
(** * baseErrorCodes.ts *)
(* ===================================================================== *)

Module BaseErrorCodes.
Definition serverError : string := "server_error".
Definition unauthorizedRequest : string := "unauthorized".
Definition claimsFailure : string := "claims_failure".
Definition exceptionSimulation : string := "exception_simulation".
Definition insufficientScope : string := "insufficient_scope".
End BaseErrorCodes.

Module ErrorTaxonomy.

(** Modelled from the spec: the failure kinds of section 7 of the
    specification that have a fixed code. *)
Inductive FailureKind :=
| UnauthorizedError
| DependencyError
| SimulatedException.

(** Modelled from the spec: the code that builds the error responses (the
    error classes and the exception middleware) is not among the sources.
    Section 7 of the specification gives each failure kind its code: the
    generic code [unauthorized], the generic code [server_error] and the
    code [exception_simulation]; the class [BaseErrorCodes] above has the
    strings. *)
Definition externalCode (k : FailureKind) : string :=
  match k with
  | UnauthorizedError => BaseErrorCodes.unauthorizedRequest
  | DependencyError => BaseErrorCodes.serverError
  | SimulatedException => BaseErrorCodes.exceptionSimulation
  end.

End ErrorTaxonomy.

(* ===================================================================== *)
(** * claimsProvider.ts *)
(* ===================================================================== *)

Module BaseClaims.
(** Modelled from the spec: the class [BaseClaims] is not among the
    sources.  Section 3 of the specification gives its fields; the
    constructor is taken to store its arguments in order, and the scopes
    are kept as the array that the source builds. *)
Record t := mk { subject : string; scopes : list string; expiry : JS.number }.
End BaseClaims.

Module UserInfoClaims.
(** Modelled from the spec: the class [UserInfoClaims] is not among the
    sources.  Section 3 of the specification gives its fields; the
    constructor is taken to store its arguments in order. *)
Record t := mk { givenName : string; familyName : string; email : string }.
End UserInfoClaims.

Module CustomClaims.
(** Modelled from the spec: the class [CustomClaims] is not among the
    sources.  By section 3 of the specification it is an open structure
    that may be empty: the own properties of the object. *)
Definition t : Type := gmap string JS.value.
(** [new CustomClaims()]: the structure without properties. *)
Definition new : t := ∅.
End CustomClaims.

Module ApiClaims.
(** Modelled from the spec: the class [ApiClaims] is not among the
    sources.  By section 3 of the specification it is the composition of
    the three claims objects, which its constructor receives in this
    order. *)
Record t := mk {
  token : BaseClaims.t;
  userInfo : UserInfoClaims.t;
  custom : CustomClaims.t
}.
(** The subject of the composed claims. *)
Definition subject (c : t) : string := BaseClaims.subject (token c).
End ApiClaims.

Module ClaimsProvider.
Section WithPayload.

(** The class [ClaimsPayload] is not among the sources: a payload is any
    type with the method [getClaim(name)], which gives the claim as a string
    or throws. *)
Context {ClaimsPayload : Type}.
Context (getClaim : ClaimsPayload -> string -> Result Exception string).
Context {Ext : Type}.

(** The calls that [supplyClaims] makes to overridable code. *)
Inductive Call :=
| SupplyCustomClaims (tokenData userInfoData : ClaimsPayload).

(** The class, as far as a derived class can change it: the protected
    method [supplyCustomClaims]. *)
Record t := mk {
  supplyCustomClaims :
    ClaimsPayload -> ClaimsPayload -> External Ext Exception CustomClaims.t
}.

(** The method [supplyCustomClaims] of the class itself. *)
Definition default_supplyCustomClaims (tokenData userInfoData : ClaimsPayload)
  : External Ext Exception CustomClaims.t :=
  fun x => (Returned CustomClaims.new, x).

(** The class without an override. *)
Definition base : t := mk default_supplyCustomClaims.

Definition _readBaseClaims (data : ClaimsPayload)
  : Result Exception BaseClaims.t :=
  let? subject := getClaim data "sub" in
  let? scope := getClaim data "scope" in
  let scopes := JS.split scope " " in
  let? exp := getClaim data "exp" in
  let expiry := JS.parseInt exp 10 in
  Returned (BaseClaims.mk subject scopes expiry).

Definition _readUserInfoClaims (data : ClaimsPayload)
  : Result Exception UserInfoClaims.t :=
  let? givenName := getClaim data "given_name" in
  let? familyName := getClaim data "family_name" in
  let? email := getClaim data "email" in
  Returned (UserInfoClaims.mk givenName familyName email).

Definition supplyClaims (this : t) (tokenData userInfoData : ClaimsPayload)
  : M Ext Call Exception ApiClaims.t :=
  let* customClaims :=
    call (SupplyCustomClaims tokenData userInfoData)
         (supplyCustomClaims this tokenData userInfoData) in
  let* base := liftResult (_readBaseClaims tokenData) in
  let* userInfo := liftResult (_readUserInfoClaims userInfoData) in
  ret (ApiClaims.mk base userInfo customClaims).

End WithPayload.
Arguments Call : clear implicits.
Arguments t : clear implicits.
End ClaimsProvider.

(* ===================================================================== *)
(** * jsonFileReader.ts *)
(* ===================================================================== *)

Module JsonFileReader.
Section WithPlatform.

(** The platform: [fs.readFile], [buffer.toString()] and [JSON.parse].
    Each returns or throws, and what it throws is a JavaScript value.  [fileReadError] stands for the
    constant [SampleErrorCodes.fileReadError], whose class is not among the
    sources. *)
Context {Ext Buffer : Type}.
Context (fs_readFile : string -> External Ext JS.value Buffer).
Context (Buffer_toString : Buffer -> Result JS.value string).
Context (JSON_parse : string -> Result JS.value JS.value).
Context (fileReadError : string).

Inductive Call :=
| ReadFile (filePath : string).

(** The [catch] block of [readData]. *)
Definition readData_catch (e : JS.value) : Result Exception JS.value :=
  let? stack := getProperty e "stack" in
  let error :=
    ErrorFactory.createServerError
      fileReadError "Problem encountered reading data" stack in
  let? error :=
    if JS.instanceofError e then
      let? message := getProperty e "message" in
      Returned (ServerError.setDetails error message)
    else
      Returned (ServerError.setDetails error e) in
  Thrown (ServerErrorEx error).

Definition readData (filePath : string) : M Ext Call Exception JS.value :=
  tryCatch
    (let* buffer := call (ReadFile filePath) (fs_readFile filePath) in
     let* text := liftResult (Buffer_toString buffer) in
     liftResult (JSON_parse text))
    (fun e => liftResult (readData_catch e)).

End WithPlatform.
End JsonFileReader.

(* ===================================================================== *)
(** * baseCompositionRoot.ts *)
(* ===================================================================== *)

(** The identifiers of [baseTypes.ts] that the composition root binds.
    The file is not among the sources; its members are taken from their
    uses, one distinct identifier each. *)
Module BASETYPES.
Inductive t :=
| LogEntry
| HttpProxy
| BaseClaims
| UserInfoClaims
| CustomClaims
| OAuthConfiguration
| JwksRetriever
| AccessTokenRetriever
| OAuthAuthenticator
| JwtValidator.

Definition eqb (a b : t) : bool :=
  match a, b with
  | LogEntry, LogEntry | HttpProxy, HttpProxy | BaseClaims, BaseClaims
  | UserInfoClaims, UserInfoClaims | CustomClaims, CustomClaims
  | OAuthConfiguration, OAuthConfiguration | JwksRetriever, JwksRetriever
  | AccessTokenRetriever, AccessTokenRetriever
  | OAuthAuthenticator, OAuthAuthenticator | JwtValidator, JwtValidator => true
  | _, _ => false
  end.
End BASETYPES.

(** The part of the inversify container that the composition root uses:
    [bind(id).toConstantValue(v)], [bind(id).to(C).inTransientScope()] and
    [get(id)].  Objects are known by their reference; [null] is [None]. *)
Module Container.

(** The injectable classes of the OAuth code. *)
Inductive Class :=
| JwksRetriever
| AccessTokenRetriever
| OAuthAuthenticator
| JwtValidator.

Definition Ref : Type := nat.

Inductive Binding :=
| ConstantValue (v : option Ref)
| Transient (c : Class).

(** The process: the next free reference, the class instances constructed
    so far (oldest first) and the bindings of the container, in the order
    they were made. *)
Record State := mkState {
  nextRef : Ref;
  constructed : list (Class * Ref);
  bindings : list (BASETYPES.t * Binding)
}.

Definition empty : State := mkState 0 [] [].

(** [{}]: a new object. *)
Definition newObject (st : State) : Ref * State :=
  (nextRef st, mkState (S (nextRef st)) (constructed st) (bindings st)).

(** [new C(...)]: a new instance of an injectable class. *)
Definition construct (c : Class) (st : State) : Ref * State :=
  (nextRef st,
   mkState (S (nextRef st)) (constructed st ++ [(c, nextRef st)]) (bindings st)).

(** [container.bind(id)...]: one more binding for [id]. *)
Definition bind (id : BASETYPES.t) (b : Binding) (st : State) : State :=
  mkState (nextRef st) (constructed st) (bindings st ++ [(id, b)]).

Definition bindingsOf (id : BASETYPES.t) (st : State) : list Binding :=
  map snd (List.filter (fun p => BASETYPES.eqb (fst p) id) (bindings st)).

Inductive Failure :=
| NotRegistered
| AmbiguousMatch.

(** [container.get(id)]: a constant value is handed out as it is, a class
    in transient scope is instantiated anew; no binding or several
    bindings for [id] make [get] throw. *)
Definition get (id : BASETYPES.t) (st : State)
  : Result Failure (option Ref) * State :=
  match bindingsOf id st with
  | [] => (Thrown NotRegistered, st)
  | [ConstantValue v] => (Returned v, st)
  | [Transient c] => let '(r, st') := construct c st in (Returned (Some r), st')
  | _ => (Thrown AmbiguousMatch, st)
  end.

Definition isJwksRetriever (c : Class) : bool :=
  match c with
  | JwksRetriever => true
  | _ => false
  end.

(** The instances of [JwksRetriever] among the instances constructed. *)
Definition jwksRetrievers (st : State) : list (Class * Ref) :=
  List.filter (fun p => isJwksRetriever (fst p)) (constructed st).

(** The state after the resolutions [ids], made one after the other. *)
Fixpoint resolveAll (ids : list BASETYPES.t) (st : State) : State :=
  match ids with
  | [] => st
  | id :: rest => resolveAll rest (snd (get id st))
  end.

End Container.

Module BaseCompositionRoot.

(** The fields of the class; [_container] is the [Container.State]. *)
Record t := mk {
  _loggingConfiguration : option Container.Ref;
  _oauthConfiguration : option Container.Ref;
  _cacheConfiguration : option Container.Ref;
  _claimsProvider : option Container.Ref;
  _loggerFactory : option Container.Ref;
  _httpProxy : option Container.Ref
}.

(** The constructor: no configuration yet. *)
Definition new : t := mk None None None None None None.

(** [useOAuth(configuration)] *)
Definition useOAuth (configuration : Container.Ref) (this : t) : t :=
  mk (_loggingConfiguration this) (Some configuration)
     (_cacheConfiguration this) (_claimsProvider this)
     (_loggerFactory this) (_httpProxy this).

(** [withClaimsProvider(provider, configuration)] *)
Definition withClaimsProvider (provider configuration : Container.Ref)
    (this : t) : t :=
  mk (_loggingConfiguration this) (_oauthConfiguration this)
     (Some configuration) (Some provider)
     (_loggerFactory this) (_httpProxy this).

(** [useHttpProxy(httpProxy)] *)
Definition useHttpProxy (httpProxy : Container.Ref) (this : t) : t :=
  mk (_loggingConfiguration this) (_oauthConfiguration this)
     (_cacheConfiguration this) (_claimsProvider this)
     (_loggerFactory this) (Some httpProxy).

(** [process.env] *)
Record Process := mkProcess { env : gmap string string }.

(** The cache classes: [AwsCache] is the one the source imports,
    [DevelopmentCache] the one of the import that is commented out. *)
Inductive Cache :=
| DevelopmentCache
| AwsCache (configuration claimsProvider : option Container.Ref).

Definition _registerBaseDependencies (this : t) (st : Container.State)
  : Container.State :=
  let '(logEntry, st) := Container.newObject st in
  let st := Container.bind BASETYPES.LogEntry
              (Container.ConstantValue (Some logEntry)) st in
  Container.bind BASETYPES.HttpProxy
    (Container.ConstantValue (_httpProxy this)) st.

Definition _registerClaimsDependencies (this : t) (st : Container.State)
  : Container.State :=
  let '(o1, st) := Container.newObject st in
  let st := Container.bind BASETYPES.BaseClaims
              (Container.ConstantValue (Some o1)) st in
  let '(o2, st) := Container.newObject st in
  let st := Container.bind BASETYPES.UserInfoClaims
              (Container.ConstantValue (Some o2)) st in
  let '(o3, st) := Container.newObject st in
  Container.bind BASETYPES.CustomClaims
    (Container.ConstantValue (Some o3)) st.

Definition _registerOAuthDependencies (this : t) (st : Container.State)
  : Container.State :=
  let '(jwksRetriever, st) := Container.construct Container.JwksRetriever st in
  let st := Container.bind BASETYPES.OAuthConfiguration
              (Container.ConstantValue (_oauthConfiguration this)) st in
  let st := Container.bind BASETYPES.JwksRetriever
              (Container.ConstantValue (Some jwksRetriever)) st in
  let st := Container.bind BASETYPES.AccessTokenRetriever
              (Container.Transient Container.AccessTokenRetriever) st in
  let st := Container.bind BASETYPES.OAuthAuthenticator
              (Container.Transient Container.OAuthAuthenticator) st in
  Container.bind BASETYPES.JwtValidator
    (Container.Transient Container.JwtValidator) st.

Definition register (this : t) (st : Container.State) : Container.State :=
  let st := _registerBaseDependencies this st in
  let st := _registerClaimsDependencies this st in
  _registerOAuthDependencies this st.

(** The identifiers bound to a class in transient scope. *)
Definition transientBindings : list (BASETYPES.t * Container.Class) :=
  [(BASETYPES.AccessTokenRetriever, Container.AccessTokenRetriever);
   (BASETYPES.OAuthAuthenticator, Container.OAuthAuthenticator);
   (BASETYPES.JwtValidator, Container.JwtValidator)].

(** The body is the last statement alone: the selection on
    [process.env.IS_LOCAL] is inside a comment. *)
Definition _createOAuthCache (process : Process) (this : t) : Cache :=
  AwsCache (_cacheConfiguration this) (_claimsProvider this).

(** What the comment on [_createOAuthCache] and its commented-out
    statement describe. *)
Definition _createOAuthCache_documented (process : Process) (this : t)
  : Cache :=
  if decide (env process !! "IS_LOCAL" = Some "true") then DevelopmentCache
  else AwsCache (_cacheConfiguration this) (_claimsProvider this).

End BaseCompositionRoot.

(* ===================================================================== *)
(** * getCompanyTransactions.ts *)
(* ===================================================================== *)

Module GetCompanyTransactions.

(** The event of the API gateway, as far as the handler reads it:
    [pathParameters] is [null] or a map from names to strings. *)
Record APIGatewayEvent := mkEvent {
  pathParameters : option (gmap string string)
}.

(** Modelled from the spec: [ResponseWriter.objectResponse(status, data)] is
    not among the sources; the response is the status with the data as its
    body. *)
Record Response (Body : Type) := objectResponse {
  statusCode : Z;
  body : Body
}.
Arguments objectResponse {Body} statusCode body.
Arguments statusCode {Body} r.
Arguments body {Body} r.

(** ToString of [event.pathParameters.id], which is a string when the
    parameter is there and [undefined] when it is not. *)
Definition idToString (id : option string) : string :=
  match id with
  | Some s => s
  | None => "undefined"
  end.

Section WithService.

(** The outside of the handler: the resolution
    [container.get<CompanyService>(SAMPLETYPES.CompanyService)] and the
    method [service.getCompanyTransactions(id)].  [invalidCompanyId] stands
    for the constant [SampleErrorCodes.invalidCompanyId], whose class is not
    among the sources. *)
Context {Ext Service Companies : Type}.
Context (container_get : External Ext Exception Service).
Context (getCompanyTransactions :
           Service -> JS.number -> External Ext Exception Companies).
Context (invalidCompanyId : string).

Inductive Call :=
| ContainerGet
| ServiceGetCompanyTransactions (service : Service) (id : JS.number).

Definition baseHandler (event : APIGatewayEvent)
  : M Ext Call Exception (Response Companies) :=
  let* params :=
    match pathParameters event with
    | Some params => ret params
    | None =>
        throw (JsThrown
                 (JS.TypeError "Cannot read properties of null (reading 'id')"))
    end in
  let id := JS.parseInt (idToString (params !! "id")) 10 in
  if JS.isNaN id || JS.le id JS.zero then
    throw (ClientErrorEx
             (ErrorFactory.createClientError
                400 invalidCompanyId
                "The company id must be a positive numeric integer"))
  else
    let* service := call ContainerGet container_get in
    let* companies :=
      call (ServiceGetCompanyTransactions service id)
           (getCompanyTransactions service id) in
    ret (objectResponse 200 companies).

End WithService.
Arguments Call : clear implicits.
End GetCompanyTransactions.

(* ===================================================================== *)
(** * middy: the engine that runs a handler between its middlewares *)
(* ===================================================================== *)

(** The part of middy (the package [middy] of the versions 0.x, which
    [middlewareHelper.ts] imports) that the class [MiddlewareHelper] uses:
    [middy(handler)], [use(middleware)] and the call of the instance. *)
Module Middy.

(** The instance that middy shows to its middlewares: [instance.event],
    [instance.context], [instance.response] and [instance.error], which is
    [None] for [null]. *)
Record Instance := mkInstance {
  event : JS.value;
  context : JS.value;
  response : JS.value;
  error : option Exception
}.

Definition setResponse (h : Instance) (v : JS.value) : Instance :=
  mkInstance (event h) (context h) v (error h).

Definition setError (h : Instance) (e : Exception) : Instance :=
  mkInstance (event h) (context h) (response h) (Some e).

(** How a hook of a middleware ends, with the instance as it has left it:
    by [next()], by [next(err)] (or a promise resolved with [err]), or by
    throwing (or a rejected promise). *)
Inductive Outcome :=
| Next (h : Instance)
| NextError (h : Instance) (err : Exception)
| Throws (h : Instance) (err : Exception).

(** ToBoolean of what was thrown: middy tests errors with [if (err)]. *)
Definition errTruthy (e : Exception) : bool :=
  match e with
  | JsThrown v => JS.truthy v
  | ClientErrorEx _ | ServerErrorEx _ => true
  end.

Section WithWorld.
Context {Ext Ev : Type}.

(** A hook acts on the instance and on the world outside. *)
Definition Hook : Type := Instance -> Ext -> Outcome * Ext.

(** A middleware: an object with the optional keys [before], [after] and
    [onError]. *)
Record Middleware := mkMiddleware {
  before : option Hook;
  after : option Hook;
  onError : option Hook
}.

(** The instance that [middy(handler)] returns, with the hooks added so
    far. *)
Record t := mk {
  handler : JS.value -> JS.value -> M Ext Ev Exception JS.value;
  beforeMiddlewares : list Hook;
  afterMiddlewares : list Hook;
  errorMiddlewares : list Hook
}.

(** [middy(handler)] *)
Definition middy
    (handler : JS.value -> JS.value -> M Ext Ev Exception JS.value) : t :=
  mk handler [] [] [].

Definition hooks (h : option Hook) : list Hook :=
  match h with
  | Some hook => [hook]
  | None => []
  end.

(** [instance.use(middleware)]: a [before] hook and an [onError] hook go to
    the end of their lists, an [after] hook to the front of its list; a
    middleware without any hook is refused. *)
Definition use (m : t) (middleware : Middleware) : Result Exception t :=
  match before middleware, after middleware, onError middleware with
  | None, None, None =>
      Thrown (JsThrown
                (JS.Object true
                   [("message",
                     JS.Str "Middleware must contain at least one key among before, after, onError")]))
  | _, _, _ =>
      Returned
        (mk (handler m)
            (beforeMiddlewares m ++ hooks (before middleware))
            (hooks (after middleware) ++ afterMiddlewares m)
            (errorMiddlewares m ++ hooks (onError middleware)))
  end.

(** [runMiddlewares]: the hooks one after the other, up to the first that
    gives an error.  A truthy error ends the run with this error; a falsy
    one given to [next] counts as none, and a falsy one thrown ends the run
    without an error. *)
Fixpoint runMiddlewares (middlewares : list Hook) (h : Instance) (x : Ext)
  : (Instance * option Exception) * Ext :=
  match middlewares with
  | [] => ((h, None), x)
  | hook :: rest =>
      match hook h x with
      | (Next h', x') => runMiddlewares rest h' x'
      | (NextError h' e, x') =>
          if errTruthy e then ((h', Some e), x')
          else runMiddlewares rest h' x'
      | (Throws h' e, x') =>
          if errTruthy e then ((h', Some e), x') else ((h', None), x')
      end
  end.

(** [terminate(err)]: reject with a truthy error, else resolve with the
    response of the instance. *)
Definition terminate (err : option Exception) (h : Instance)
  : Result Exception JS.value :=
  match err with
  | Some e => if errTruthy e then Thrown e else Returned (response h)
  | None => Returned (response h)
  end.

Definition falsyError (err : option Exception) : bool :=
  match err with
  | Some e => negb (errTruthy e)
  | None => true
  end.

(** [runErrorMiddlewares]: every [onError] hook runs, each after the
    other; the error counts as handled as soon as a hook calls [next]
    without a truthy error, and the run ends at once when a hook throws. *)
Fixpoint runErrorMiddlewares (middlewares : list Hook) (h : Instance)
    (err : option Exception) (handled : bool) (x : Ext)
  : Result Exception JS.value * Ext :=
  let handled := handled || falsyError err in
  match middlewares with
  | [] => (terminate (if handled then None else err) h, x)
  | hook :: rest =>
      match hook h x with
      | (Next h', x') => runErrorMiddlewares rest h' None handled x'
      | (NextError h' e, x') => runErrorMiddlewares rest h' (Some e) handled x'
      | (Throws h' e, x') => (terminate (Some e) h', x')
      end
  end.

(** [errorHandler(err)]: note the error in the instance and run the
    [onError] hooks. *)
Definition errorHandler (m : t) (e : Exception) (h : Instance) (x : Ext)
  : Result Exception JS.value * Ext :=
  runErrorMiddlewares (errorMiddlewares m) (setError h e) (Some e) false x.

(** What follows a handler that has returned: the [after] hooks, then the
    end. *)
Definition afterPhase (m : t) (h : Instance) (x : Ext)
  : Result Exception JS.value * Ext :=
  match runMiddlewares (afterMiddlewares m) h x with
  | ((h', None), x') => (Returned (response h'), x')
  | ((h', Some e), x') => errorHandler m e h' x'
  end.

(** The call [instance(event, context)]: the [before] hooks, the handler on
    the event of the instance, the [after] hooks, and the [onError] hooks
    for an error on the way.  The result is what the promise of the
    instance resolves with (or what its callback receives), or the error it
    rejects with. *)
Definition invoke (m : t) (event0 context0 : JS.value)
  : M Ext Ev Exception JS.value :=
  fun w =>
    let h0 := mkInstance event0 context0 JS.Null None in
    match runMiddlewares (beforeMiddlewares m) h0 (ext w) with
    | ((h1, Some e), x1) =>
        let '(r, x) := errorHandler m e h1 x1 in
        (r, mkWorld x (calls w))
    | ((h1, None), x1) =>
        match handler m (event h1) context0 (mkWorld x1 (calls w)) with
        | (Returned v, w2) =>
            let '(r, x) := afterPhase m (setResponse h1 v) (ext w2) in
            (r, mkWorld x (calls w2))
        | (Thrown e, w2) =>
            let '(r, x) := errorHandler m e (setResponse h1 JS.Null) (ext w2) in
            (r, mkWorld x (calls w2))
        end
    end.

End WithWorld.
Arguments Hook : clear implicits.
Arguments Middleware : clear implicits.
Arguments t : clear implicits.
End Middy.

(* ===================================================================== *)
(** * middlewareHelper.ts *)
(* ===================================================================== *)

Module MiddlewareHelper.

(** The options of the cors middleware that the class sets: [origins]. *)
Record ICorsOptions := mkCorsOptions { origins : list string }.

(** The configuration, as far as the class reads it:
    [apiConfig.app.trustedOrigins].  The class [Configuration] is not among
    the sources. *)
Record Configuration := mkConfiguration { trustedOrigins : list string }.

(** The fields of the class; the authorization microservice is an object
    known by its reference. *)
Record t := mk {
  _apiConfig : Configuration;
  _authorizationMicroservice : nat;
  _corsConfig : ICorsOptions
}.

(** The constructor. *)
Definition new (apiConfig : Configuration) (authorizationMicroservice : nat)
  : t :=
  mk apiConfig authorizationMicroservice
     (mkCorsOptions (trustedOrigins apiConfig)).

(** The calls to the outside that the handlers record. *)
Inductive Call :=
| ConsoleLog (v : JS.value)
| Operation (event : JS.value) (context : JS.value).

(** Whether a recorded call is a call of the wrapped operation. *)
Definition isOperation (c : Call) : bool :=
  match c with
  | Operation _ _ => true
  | ConsoleLog _ => false
  end.

(** What the API handler function writes to the console, up to the line
    that reads [event.claims] and with that line. *)
Definition firstLines (context : JS.value) : list Call :=
  [ConsoleLog (JS.Str "*** DEBUG: RUNNING OPERATION");
   ConsoleLog (JS.Str "*** DEBUG: context");
   ConsoleLog context;
   ConsoleLog (JS.Str "*** DEBUG: event claims")].

Definition debugLines (context claims : JS.value) : list Call :=
  firstLines context ++ [ConsoleLog claims].

Section WithOperation.

(** The outside of the class: the wrapped [operation], the function [cors]
    of [middy/middlewares] and the middleware that [exceptionMiddleware()]
    of the repository returns, which is not among the sources.  The event
    and the context are any values. *)
Context {Ext : Type}.
Context (cors : ICorsOptions -> Middy.Middleware Ext).
Context (exceptionMiddleware : Middy.Middleware Ext).
Context (operation : JS.value -> JS.value -> External Ext Exception JS.value).

Definition console_log (v : JS.value) : M Ext Call Exception unit :=
  call (ConsoleLog v) (fun x => (Returned tt, x)).

(** The async function that [enrichAuthOperation] gives to middy. *)
Definition authOperation (event context : JS.value)
  : M Ext Call Exception JS.value :=
  do console_log (JS.Str "*** DEBUG: RUNNING AUTHORIZER") in
  call (Operation event context) (operation event context).

(** The async function that [enrichApiOperation] gives to middy.  Reading
    [event.claims] throws for an event that is [undefined] or [null]. *)
Definition apiOperation (event context : JS.value)
  : M Ext Call Exception JS.value :=
  do console_log (JS.Str "*** DEBUG: RUNNING OPERATION") in
  do console_log (JS.Str "*** DEBUG: context") in
  do console_log context in
  do console_log (JS.Str "*** DEBUG: event claims") in
  let* claims := liftResult (getProperty event "claims") in
  do console_log claims in
  let* claims := liftResult (getProperty event "claims") in
  if JS.truthy claims then
    call (Operation event context) (operation event context)
  else
    ret JS.Undefined.

(** [enrichAuthOperation(operation)]: the middy instance of the function,
    with the cors middleware and then the exception middleware. *)
Definition enrichAuthOperation (this : t)
  : Result Exception (Middy.t Ext Call) :=
  let? m := Middy.use (Middy.middy authOperation) (cors (_corsConfig this)) in
  Middy.use m exceptionMiddleware.

(** [enrichApiOperation(operation)]: the middy instance of the function,
    with the cors middleware and then the exception middleware. *)
Definition enrichApiOperation (this : t)
  : Result Exception (Middy.t Ext Call) :=
  let? m := Middy.use (Middy.middy apiOperation) (cors (_corsConfig this)) in
  Middy.use m exceptionMiddleware.

End WithOperation.
End MiddlewareHelper.


(* ===================================================================== *)
(** * Data of the tests *)
(* ===================================================================== *)

(** The data that [oauthApiTests.ts] and [tokenIssuer.ts] use, for the
    examples below, with a payload kept as a map from claim names to
    strings whose [getClaim] throws when the claim is not there. *)
Module TestData.

Definition MapPayload : Type := gmap string string.

Definition getClaim (data : MapPayload) (name : string)
  : Result Exception string :=
  match data !! name with
  | Some v => Returned v
  | None => Thrown (JsThrown (JS.TypeError ("Missing claim " ++ name)))
  end.

Definition guestUserId : string := "a6b404b1-98af-41a2-8e7f-e4061dc0bf86".

Definition tokenScope : string :=
  "openid profile https://api.authsamples.com/investments".

Definition tokenData : MapPayload :=
  {[ "sub" := guestUserId;
     "iss" := "testissuer.com";
     "aud" := "api.mycompany.com";
     "scope" := tokenScope;
     "exp" := "1762099230" ]}.

Definition userInfoData : MapPayload :=
  {[ "given_name" := "Guest";
     "family_name" := "User";
     "email" := "guestuser@mycompany.com" ]}.

(** A process started by [sls invoke local], which sets [IS_LOCAL], and a
    process in AWS, which does not. *)
Definition localProcess : BaseCompositionRoot.Process :=
  BaseCompositionRoot.mkProcess {[ "IS_LOCAL" := "true" ]}.

Definition awsProcess : BaseCompositionRoot.Process :=
  BaseCompositionRoot.mkProcess ∅.

(** A composition root set up the way the lambdas do it, with the
    configuration objects, the claims provider and the proxy made before
    the container is used. *)
Definition startState : Container.State := Container.mkState 4 [] [].

Definition compositionRoot : BaseCompositionRoot.t :=
  BaseCompositionRoot.useHttpProxy 3
    (BaseCompositionRoot.withClaimsProvider 2 1
       (BaseCompositionRoot.useOAuth 0 BaseCompositionRoot.new)).

(** A file system: the files by their paths.  Reading a file that is not
    there rejects with the error object of the platform. *)
Definition FileSystem : Type := gmap string string.

Definition ENOENT (filePath : string) : JS.value :=
  JS.Object true
    [("errno", JS.Num (JS.Finite true 2));
     ("code", JS.Str "ENOENT");
     ("syscall", JS.Str "open");
     ("path", JS.Str filePath);
     ("message",
      JS.Str ("ENOENT: no such file or directory, open '" ++ filePath ++ "'"));
     ("stack",
      JS.Str ("Error: ENOENT: no such file or directory, open '" ++ filePath
                ++ "'"))].

Definition fs_readFile (filePath : string)
  : External FileSystem JS.value string :=
  fun files =>
    match files !! filePath with
    | Some content => (Returned content, files)
    | None => (Thrown (ENOENT filePath), files)
    end.

Definition Buffer_toString (buffer : string) : Result JS.value string :=
  Returned buffer.

Definition SyntaxError (message : string) : JS.value :=
  JS.Object true
    [("name", JS.Str "SyntaxError");
     ("message", JS.Str message);
     ("stack", JS.Str ("SyntaxError: " ++ message))].

(** [JSON.parse] on the few texts of the examples: the literals [null],
    [true] and [false] and the empty object; any other text is refused. *)
Definition JSON_parse (text : string) : Result JS.value JS.value :=
  if String.eqb text "null" then Returned JS.Null
  else if String.eqb text "true" then Returned (JS.Bool true)
  else if String.eqb text "false" then Returned (JS.Bool false)
  else if String.eqb text "{}" then Returned (JS.Object false [])
  else Thrown (SyntaxError "Unexpected token in JSON").

Definition files : FileSystem :=
  {[ "data/empty.json" := "{}"; "data/broken.json" := "{ companies: " ]}.

(** A company service in the manner of the tests: company 2 is in a region
    of the user and has 8 transactions; any other company is not found. *)
Record CompanyTransactions := mkCompanyTransactions {
  companyId : N;
  transactionCount : nat
}.

Definition container_get : External unit Exception unit :=
  fun x => (Returned tt, x).

Definition getCompanyTransactions (service : unit) (id : JS.number)
  : External unit Exception CompanyTransactions :=
  fun x =>
    match id with
    | JS.Finite false 2 => (Returned (mkCompanyTransactions 2 8), x)
    | _ =>
        (Thrown (ClientErrorEx
                   (ErrorFactory.createClientError
                      404 "company_not_found"
                      "Company not found for the user")), x)
    end.

(** A business operation that answers with the claims it finds, and one
    that throws. *)
Definition echoClaims (event context : JS.value)
  : External unit Exception JS.value :=
  fun x =>
    (match JS.getProp event "claims" with
     | inr claims => Returned claims
     | inl typeError => Thrown (JsThrown typeError)
     end, x).

Definition failingOperation (event context : JS.value)
  : External unit Exception JS.value :=
  fun x => (Thrown (JsThrown (JS.TypeError "operation failed")), x).

Definition authorizedEvent : JS.value :=
  JS.Object false
    [("httpMethod", JS.Str "GET");
     ("claims", JS.Object false [("sub", JS.Str guestUserId)])].

Definition unauthorizedEvent : JS.value :=
  JS.Object false [("httpMethod", JS.Str "GET")].

(** The configuration of the API with one trusted origin. *)
Definition apiConfig : MiddlewareHelper.Configuration :=
  MiddlewareHelper.mkConfiguration ["https://web.mycompany.com"].

(** The cors middleware of middy in the case of the examples: options with
    [origins], an event without an [Origin] header, a response without
    headers.  Its [after] hook gives the response of an event that has
    [httpMethod] the header [Access-Control-Allow-Origin] with the first
    of the origins, or [*] without origins; it makes the response an object
    when it is none. *)
Definition corsOrigin (options : MiddlewareHelper.ICorsOptions) : string :=
  match MiddlewareHelper.origins options with
  | origin :: _ => origin
  | [] => "*"
  end.

Definition corsAfter (options : MiddlewareHelper.ICorsOptions)
  : Middy.Hook unit :=
  fun h x =>
    match Middy.event h with
    | JS.Undefined | JS.Null =>
        (Middy.Throws h
           (JsThrown
              (JS.TypeError "Cannot read properties of null (reading 'hasOwnProperty')")),
         x)
    | JS.Object _ props =>
        match JS.ownProp props "httpMethod" with
        | Some _ =>
            let responseProps :=
              match Middy.response h with
              | JS.Object _ ps => ps
              | _ => []
              end in
            (Middy.Next
               (Middy.setResponse h
                  (JS.Object false
                     (responseProps ++
                      [("headers",
                        JS.Object false
                          [("Access-Control-Allow-Origin",
                            JS.Str (corsOrigin options))])]))),
             x)
        | None => (Middy.Next h, x)
        end
    | _ => (Middy.Next h, x)
    end.

Definition cors (options : MiddlewareHelper.ICorsOptions)
  : Middy.Middleware unit :=
  Middy.mkMiddleware None (Some (corsAfter options)) None.

(** An exception middleware with an [onError] hook alone, which answers
    the error with a response of status 500 and goes on. *)
Definition exceptionMiddleware : Middy.Middleware unit :=
  Middy.mkMiddleware None None
    (Some (fun h x =>
             (Middy.Next
                (Middy.setResponse h
                   (JS.Object false
                      [("statusCode", JS.Num (JS.Finite false 500))])),
              x))).

Definition middlewareHelper : MiddlewareHelper.t :=
  MiddlewareHelper.new apiConfig 0.

Definition transactionsEvent (id : string)
  : GetCompanyTransactions.APIGatewayEvent :=
  GetCompanyTransactions.mkEvent (Some {[ "id" := id ]}).

End TestData.

(* ===================================================================== *)
(** * More of the sources *)
(* ===================================================================== *)

(** Helpers to state facts about strings. *)
Module Text.

(** The number of occurrences of a code unit. *)
Fixpoint count (s : string) (c : ascii) : nat :=
  match s with
  | EmptyString => 0
  | String d r => (if Ascii.eqb d c then 1 else 0) + count r c
  end.

(** Whether every code unit is white space for [parseInt]. *)
Fixpoint allWhiteSpace (s : string) : bool :=
  match s with
  | EmptyString => true
  | String c r => JS.isWhiteSpace c && allWhiteSpace r
  end.

Definition isDecimalDigit (c : ascii) : bool :=
  ((48 <=? N_of_ascii c) && (N_of_ascii c <=? 57))%N.

(** Whether the string begins with a decimal digit. *)
Definition startsWithDigit (s : string) : bool :=
  match s with
  | EmptyString => false
  | String c _ => isDecimalDigit c
  end.

End Text.

(* ===================================================================== *)
(** ** lambdaChildProcess.ts: the test utility that runs a lambda *)
(* ===================================================================== *)

Module LambdaChildProcess.

(** The options of [invoke].  The class [LambdaChildProcessOptions] is not
    among the sources; its fields are the ones that the tests set. *)
Record LambdaChildProcessOptions := mkOptions {
  httpMethod : string;
  apiPath : string;
  lambdaFunction : string;
  accessToken : string;
  sessionId : string;
  pathParameters : option (gmap string string);
  rehearseException : bool
}.

(** The object [lambdaInput] that [invoke] builds: the request given to the
    lambda. *)
Definition lambdaInput (options : LambdaChildProcessOptions) : JS.value :=
  JS.Object false
    [("httpMethod", JS.Str "GET");
     ("path", JS.Str "/api/userinfo");
     ("headers",
      JS.Object false
        [("authorization", JS.Str ("Bearer " ++ accessToken options));
         ("x-mycompany-api-client", JS.Str "ServerlessTest");
         ("x-mycompany-session-id", JS.Str (sessionId options))])].

(** The command of [invoke] and its arguments. *)
Definition slsCommand : string := "sls".

Definition slsArguments (options : LambdaChildProcessOptions) : list string :=
  ["invoke"; "local"; "-f"; lambdaFunction options; "-p"; "test/input.txt"].

Definition LF : ascii := "010"%char.
Definition CR : ascii := "013"%char.

(** Put a code unit in front of the first piece. *)
Definition consHead (c : ascii) (pieces : list string) : list string :=
  match pieces with
  | h :: t => String c h :: t
  | [] => [String c EmptyString]
  end.

(** [text.split(/\r?\n/)]: from left to right, a line feed ends a piece,
    and so does a carriage return with the line feed after it; a carriage
    return without a line feed after it stays in its piece. *)
Fixpoint splitLines (text : string) : list string :=
  match text with
  | EmptyString => [EmptyString]
  | String c r =>
      if Ascii.eqb c LF then EmptyString :: splitLines r
      else
        match r with
        | String d r' =>
            if Ascii.eqb c CR && Ascii.eqb d LF
            then EmptyString :: splitLines r'
            else consHead c (splitLines r)
        | EmptyString => consHead c (splitLines r)
        end
  end.

(** The loop [lines.every(line => ...)] of [_transformOutput]: each line
    goes to [responseJson] with a line feed after it, and the loop stops
    after the first line that is a closing brace. *)
Fixpoint every_line (lines : list string) (responseJson : string) : string :=
  match lines with
  | [] => responseJson
  | line :: rest =>
      let responseJson := responseJson ++ (line ++ String LF EmptyString) in
      if String.eqb line "}" then responseJson
      else every_line rest responseJson
  end.

(** The text that [_transformOutput] parses. *)
Definition responseJson (lambdaOutput : string) : string :=
  every_line (splitLines lambdaOutput) EmptyString.

(** Each line with its line feed, one after the other. *)
Fixpoint unlines (lines : list string) : string :=
  match lines with
  | [] => EmptyString
  | line :: rest => line ++ String LF (unlines rest)
  end.

(** The lines joined by carriage return and line feed. *)
Fixpoint joinCRLF (lines : list string) : string :=
  match lines with
  | [] => EmptyString
  | [line] => line
  | line :: rest => line ++ String CR (String LF (joinCRLF rest))
  end.

(** A line of text: no line feed, and no carriage return. *)
Definition isLine (s : string) : bool :=
  negb (JS.contains s LF) && negb (JS.contains s CR).

Section WithPlatform.

(** The platform: [fs.readFile(path, encoding)], which gives the text of
    the file, and [JSON.parse], which takes any value. *)
Context {Ext : Type}.
Context (fs_readFile : string -> string -> External Ext Exception string).
Context (JSON_parse : JS.value -> Result Exception JS.value).

Inductive Call :=
| ReadFile (path encoding : string).

Definition _transformOutput : M Ext Call Exception JS.value :=
  let* lambdaOutput :=
    call (ReadFile "test/output.txt" "utf8")
         (fs_readFile "test/output.txt" "utf8") in
  let* responseData :=
    liftResult (JSON_parse (JS.Str (responseJson lambdaOutput))) in
  let* bodyText := liftResult (getProperty responseData "body") in
  let* body := liftResult (JSON_parse bodyText) in
  let* statusCode := liftResult (getProperty responseData "statusCode") in
  ret (JS.Object false [("statusCode", statusCode); ("body", body)]).

End WithPlatform.
End LambdaChildProcess.

(* ===================================================================== *)
(** ** More data for the examples *)
(* ===================================================================== *)

Module Samples.

(** A token payload whose [exp] claim is no number and whose [scope] claim
    is empty. *)
Definition oddTokenData : TestData.MapPayload :=
  {[ "sub" := TestData.guestUserId; "scope" := ""; "exp" := "tomorrow" ]}.

(** A file system that rejects every read with [undefined]. *)
Definition rejectingReadFile (filePath : string)
  : External unit JS.value string :=
  fun x => (Thrown JS.Undefined, x).

(** A parameter that [parseInt] turns into [Infinity]: 310 digits. *)
Definition longId : string := String.concat "" (repeat "9999999999" 31).

(** The output of a lambda run by Serverless: the response, then a message
    of the tool. *)
Definition responseLines : list string :=
  ["{"; "    statusCode: 200,"; "    body: []"].

Definition trailerLines : list string :=
  [""; "Serverless: update available"].

Definition outputFile (text : string) (path encoding : string)
  : External unit Exception string :=
  fun x => (Returned text, x).

(** A stand-in for [JSON.parse] that accepts every text as it is. *)
Definition acceptingParse (v : JS.value) : Result Exception JS.value :=
  Returned v.

Definition userInfoOptions : LambdaChildProcess.LambdaChildProcessOptions :=
  LambdaChildProcess.mkOptions
    "GET" "/investments/userinfo" "getUserInfo" "token" "session" None false.

Definition transactionsOptions
  : LambdaChildProcess.LambdaChildProcessOptions :=
  LambdaChildProcess.mkOptions
    "GET" "/investments/companies/2/transactions" "getUserInfo"
    "token" "session" (Some {[ "id" := "2" ]}) false.

End Samples.
(* ===================================================================== *)
(** * Properties of the built-ins *)
(* ===================================================================== *)

Section SplitJoin.
Variable sep : ascii.

Lemma split_not_nil (s : string) : JS.split s sep <> [].
Proof.
  induction s as [|c r IH]; simpl.
  - discriminate.
  - destruct (Ascii.eqb c sep); [discriminate|].
    destruct (JS.split r sep); discriminate.
Qed.

Lemma join_cons_cons (p q : string) (l : list string) :
  JS.join (p :: q :: l) sep = (p ++ String sep (JS.join (q :: l) sep))%string.
Proof. reflexivity. Qed.

(** Joining the pieces with the separator gives the string back. *)
Lemma join_split (s : string) : JS.join (JS.split s sep) sep = s.
Proof.
  induction s as [|c r IH]; simpl; [reflexivity|].
  destruct (Ascii.eqb c sep) eqn:Hc.
  - apply Ascii.eqb_eq in Hc; subst c.
    destruct (JS.split r sep) as [|h t] eqn:Hs.
    + exfalso; exact (split_not_nil r Hs).
    + rewrite join_cons_cons, IH. reflexivity.
  - destruct (JS.split r sep) as [|h t] eqn:Hs.
    + exfalso; exact (split_not_nil r Hs).
    + destruct t as [|q t].
      * simpl in *. now rewrite IH.
      * rewrite join_cons_cons.
        change (String c (h ++ String sep (JS.join (q :: t) sep)) = String c r).
        now rewrite <- join_cons_cons, IH.
Qed.

(** No piece holds the separator. *)
Lemma split_pieces_free (s : string) :
  Forall (fun p => JS.contains p sep = false) (JS.split s sep).
Proof.
  induction s as [|c r IH]; simpl.
  - constructor; [reflexivity | constructor].
  - destruct (Ascii.eqb c sep) eqn:Hc.
    + constructor; [reflexivity | exact IH].
    + destruct (JS.split r sep) as [|h t].
      * constructor; [simpl; now rewrite Hc | constructor].
      * inversion IH; subst. constructor; [simpl; now rewrite Hc | assumption].
Qed.

Lemma split_free (p : string) :
  JS.contains p sep = false -> JS.split p sep = [p].
Proof.
  induction p as [|c r IH]; simpl; [reflexivity|].
  destruct (Ascii.eqb c sep); simpl; [discriminate|].
  intros H. now rewrite (IH H).
Qed.

Lemma split_app_sep (p s : string) :
  JS.contains p sep = false ->
  JS.split (p ++ String sep s) sep = p :: JS.split s sep.
Proof.
  induction p as [|c r IH]; simpl.
  - intros _. now rewrite Ascii.eqb_refl.
  - destruct (Ascii.eqb c sep); simpl; [discriminate|].
    intros H. now rewrite (IH H).
Qed.

(** The pieces are the only list with these two properties. *)
Lemma split_join (l : list string) :
  l <> [] ->
  Forall (fun p => JS.contains p sep = false) l ->
  JS.split (JS.join l sep) sep = l.
Proof.
  induction l as [|p l IH]; [congruence|].
  intros _ Hall. inversion Hall as [|? ? Hp Hl]; subst.
  destruct l as [|q l].
  - simpl. now apply split_free.
  - rewrite join_cons_cons, split_app_sep by assumption.
    f_equal. apply IH; [discriminate | assumption].
Qed.

End SplitJoin.

Lemma radixDigits_decimal (s : string) (ds : list N) :
  JS.decimalDigits s = Some ds -> JS.radixDigits 10 s = ds.
Proof.
  revert ds. induction s as [|c r IH]; simpl; intros ds H.
  - now inversion H.
  - unfold JS.digitValue.
    destruct ((48 <=? N_of_ascii c)%N && (N_of_ascii c <=? 57)%N) eqn:Hd;
      [|discriminate].
    destruct (JS.decimalDigits r) as [ds'|]; [|discriminate].
    simpl in H. inversion H; subst.
    apply andb_prop in Hd as [H1 H2].
    apply N.leb_le in H1, H2.
    assert (Hlt : (N_of_ascii c - 48 <? 10)%N = true) by (apply N.ltb_lt; lia).
    rewrite Hlt. f_equal. now apply IH.
Qed.

(** On a string of decimal digits, [parseInt(s, 10)] is the number the
    digits write, as long as a double holds it exactly. *)
Lemma parseInt_decimal (s : string) (ds : list N) :
  s <> EmptyString ->
  JS.decimalDigits s = Some ds ->
  (JS.mathInt 10 ds < 2 ^ 53)%N ->
  JS.parseInt s 10 = JS.Finite false (JS.mathInt 10 ds).
Proof.
  intros Hne Hds Hsmall.
  destruct s as [|c r]; [congruence|].
  assert (Hrd : JS.radixDigits 10 (String c r) = ds)
    by (now apply radixDigits_decimal).
  assert (Hd : ((48 <=? N_of_ascii c)%N && (N_of_ascii c <=? 57)%N) = true).
  { simpl in Hds.
    destruct ((48 <=? N_of_ascii c)%N && (N_of_ascii c <=? 57)%N);
      [reflexivity | discriminate]. }
  assert (Hcons : exists d ds', ds = d :: ds').
  { simpl in Hds. rewrite Hd in Hds.
    destruct (JS.decimalDigits r) as [ds'|]; simpl in Hds; [|discriminate].
    inversion Hds. eauto. }
  apply andb_prop in Hd as [H1 H2]. apply N.leb_le in H1, H2.
  assert (Hws : JS.isWhiteSpace c = false).
  { unfold JS.isWhiteSpace.
    repeat (apply orb_false_intro || apply andb_false_intro2);
      try (apply N.leb_gt; lia); apply N.eqb_neq; lia. }
  assert (Hsign : JS.stripSign (String c r) = (false, String c r)).
  { unfold JS.stripSign.
    assert (Hm : c <> "-"%char)
      by (intros ->; vm_compute in H1; congruence).
    assert (Hp : c <> "+"%char)
      by (intros ->; vm_compute in H1; congruence).
    destruct c as [[] [] [] [] [] [] [] []]; try reflexivity; congruence. }
  unfold JS.parseInt.
  change (JS.trimStart (String c r))
    with (if JS.isWhiteSpace c then JS.trimStart r else String c r).
  rewrite Hws, Hsign.
  change (JS.toInt32 10) with 10%Z.
  cbn -[JS.radixDigits JS.roundToDouble JS.mathInt].
  rewrite Hrd.
  destruct Hcons as (d & ds' & ->).
  unfold JS.roundToDouble.
  apply N.ltb_lt in Hsmall. rewrite Hsmall. reflexivity.
Qed.

Example parseInt_2 : JS.parseInt "2" 10 = JS.Finite false 2.
Proof. reflexivity. Qed.
Example parseInt_ws : JS.parseInt "  -42px" 10 = JS.Finite true 42.
Proof. reflexivity. Qed.
Example parseInt_abc : JS.parseInt "abc" 10 = JS.NaN.
Proof. reflexivity. Qed.
Example parseInt_negzero : JS.parseInt "-0" 10 = JS.Finite true 0.
Proof. reflexivity. Qed.
Example parseInt_big :
  JS.parseInt "9007199254740993" 10 = JS.Finite false 9007199254740992.
Proof. vm_compute. reflexivity. Qed.
Example parseInt_big2 :
  JS.parseInt "9007199254740995" 10 = JS.Finite false 9007199254740996.
Proof. vm_compute. reflexivity. Qed.
Example split_scope :
  JS.split "openid profile" " " = ["openid"; "profile"].
Proof. reflexivity. Qed.
Example split_empty : JS.split "" " " = [""].
Proof. reflexivity. Qed.
Example split_double : JS.split "a  b " " " = ["a"; ""; "b"; ""].
Proof. reflexivity. Qed.
Example parseInt_overflow :
  JS.parseInt (String.concat "" (repeat "9999999999" 31)) 10 = JS.Infinity false.
Proof. vm_compute. reflexivity. Qed.
Example parseInt_undefined : JS.parseInt "undefined" 10 = JS.NaN.
Proof. reflexivity. Qed.

(* ===================================================================== *)
(** * claimsProvider.ts: the claims composer *)
(* ===================================================================== *)

Section ClaimsProviderFacts.
Context {ClaimsPayload : Type}.
Context (getClaim : ClaimsPayload -> string -> Result Exception string).
Context {Ext : Type}.

Abbreviation Provider := (ClaimsProvider.t ClaimsPayload Ext).
Abbreviation supplyClaims := (ClaimsProvider.supplyClaims getClaim).
Abbreviation _readBaseClaims := (ClaimsProvider._readBaseClaims getClaim).
Abbreviation _readUserInfoClaims := (ClaimsProvider._readUserInfoClaims getClaim).

(** When [supplyClaims] returns, each step of it has returned, the claims
    are the three parts, and the world is the one the supplier left, with
    the one call noted. *)
Lemma supplyClaims_returned (this : Provider)
    (tokenData userInfoData : ClaimsPayload)
    (w w' : World Ext (ClaimsProvider.Call ClaimsPayload))
    (claims : ApiClaims.t) :
  supplyClaims this tokenData userInfoData w = (Returned claims, w') <->
  exists custom x base userInfo,
    ClaimsProvider.supplyCustomClaims this tokenData userInfoData (ext w)
      = (Returned custom, x) /\
    _readBaseClaims tokenData = Returned base /\
    _readUserInfoClaims userInfoData = Returned userInfo /\
    claims = ApiClaims.mk base userInfo custom /\
    w' = mkWorld x
           (calls w ++ [ClaimsProvider.SupplyCustomClaims tokenData userInfoData]).
Proof.
  unfold ClaimsProvider.supplyClaims, bind, call, liftResult, ret.
  destruct (ClaimsProvider.supplyCustomClaims this tokenData userInfoData (ext w))
    as [[custom|e] x];
    [destruct (_readBaseClaims tokenData) as [base|e];
     [destruct (_readUserInfoClaims userInfoData) as [userInfo|e]|]|].
  - split.
    + intros H. inversion H; subst. exists custom, x, base, userInfo. auto.
    + intros (c & x0 & b & u & H1 & H2 & H3 & -> & ->).
      inversion H1; inversion H2; inversion H3; subst. reflexivity.
  - split; [discriminate|].
    intros (c & x0 & b & u & _ & _ & H3 & _). discriminate.
  - split; [discriminate|].
    intros (c & x0 & b & u & _ & H2 & _). discriminate.
  - split; [discriminate|].
    intros (c & x0 & b & u & H1 & _). discriminate.
Qed.

(** [_readUserInfoClaims] looks at three claims only: two payloads that
    agree on them are read alike. *)
Lemma readUserInfoClaims_reads_only
    {ClaimsPayload' : Type}
    (getClaim' : ClaimsPayload' -> string -> Result Exception string)
    (data : ClaimsPayload) (data' : ClaimsPayload') :
  (forall name, In name ["given_name"; "family_name"; "email"] ->
                getClaim' data' name = getClaim data name) ->
  ClaimsProvider._readUserInfoClaims getClaim' data' = _readUserInfoClaims data.
Proof.
  intros Hagree. unfold ClaimsProvider._readUserInfoClaims.
  rewrite !Hagree by (simpl; auto). reflexivity.
Qed.

(** C1.  For a token payload that holds the string claims [sub], [scope]
    and [exp], [_readBaseClaims] returns base claims whose subject is the
    [sub] claim, whose scopes are the pieces of the [scope] claim between
    its spaces (joined by spaces they give the claim back, none holds a
    space, and no other list of pieces does both) and whose expiry is
    [parseInt] of the [exp] claim in base 10;
    and the claims that [supplyClaims] composes from the payload have the
    [sub] claim as their subject. *)
Theorem readBaseClaims_of_token (data : ClaimsPayload) (sub scope exp : string) :
  getClaim data "sub" = Returned sub ->
  getClaim data "scope" = Returned scope ->
  getClaim data "exp" = Returned exp ->
  exists base,
    _readBaseClaims data = Returned base /\
    BaseClaims.subject base = sub /\
    BaseClaims.scopes base = JS.split scope " " /\
    JS.join (BaseClaims.scopes base) " " = scope /\
    Forall (fun p => JS.contains p " " = false) (BaseClaims.scopes base) /\
    (forall pieces,
        pieces <> [] -> JS.join pieces " " = scope ->
        Forall (fun p => JS.contains p " " = false) pieces ->
        pieces = BaseClaims.scopes base) /\
    BaseClaims.expiry base = JS.parseInt exp 10 /\
    forall (this : Provider) (userInfoData : ClaimsPayload) w claims w',
      supplyClaims this data userInfoData w = (Returned claims, w') ->
      ApiClaims.subject claims = sub.
Proof.
  intros Hsub Hscope Hexp.
  exists (BaseClaims.mk sub (JS.split scope " ") (JS.parseInt exp 10)).
  assert (Hread : _readBaseClaims data
                  = Returned (BaseClaims.mk sub (JS.split scope " ")
                                            (JS.parseInt exp 10))).
  { unfold ClaimsProvider._readBaseClaims. rewrite Hsub, Hscope, Hexp.
    reflexivity. }
  repeat split; simpl; auto using join_split, split_pieces_free.
  - intros pieces Hne Hjoin Hfree. rewrite <- Hjoin. symmetry.
    now apply split_join.
  - intros this userInfoData w claims w' H.
    apply supplyClaims_returned in H
      as (custom & x & base & userInfo & _ & Hb & _ & -> & _).
    rewrite Hread in Hb. inversion Hb; subst. reflexivity.
Qed.

(** C7.  For a user-info payload that holds the claims [given_name],
    [family_name] and [email], [_readUserInfoClaims] returns user-info
    claims with these three values, in this order of fields; and it reads
    nothing else: a payload of any kind that agrees on the three claims is
    read to the same result. *)
Theorem readUserInfoClaims_of_payload (data : ClaimsPayload)
    (given family mail : string) :
  getClaim data "given_name" = Returned given ->
  getClaim data "family_name" = Returned family ->
  getClaim data "email" = Returned mail ->
  _readUserInfoClaims data = Returned (UserInfoClaims.mk given family mail) /\
  forall (ClaimsPayload' : Type)
         (getClaim' : ClaimsPayload' -> string -> Result Exception string)
         (data' : ClaimsPayload'),
    (forall name, In name ["given_name"; "family_name"; "email"] ->
                  getClaim' data' name = getClaim data name) ->
    ClaimsProvider._readUserInfoClaims getClaim' data'
    = Returned (UserInfoClaims.mk given family mail).
Proof.
  intros Hg Hf Hm.
  assert (Hread : _readUserInfoClaims data
                  = Returned (UserInfoClaims.mk given family mail)).
  { unfold ClaimsProvider._readUserInfoClaims. rewrite Hg, Hf, Hm.
    reflexivity. }
  split; [exact Hread|].
  intros P' getClaim' data' Hagree.
  rewrite <- Hread. now apply readUserInfoClaims_reads_only.
Qed.

(** C2.  When the supplier of custom claims returns and both payloads can
    be read, [supplyClaims] returns the constructor of [ApiClaims] applied
    to the base claims read from the token payload, the user-info claims
    read from the user-info payload and the custom claims of the supplier:
    the result has these three parts and depends on nothing else.  The
    only call is the one to the supplier, and the world outside is left as
    the supplier left it, so the composition makes no access of its own to
    a network or a cache. *)
Theorem supplyClaims_composes (this : Provider)
    (tokenData userInfoData : ClaimsPayload)
    (w : World Ext (ClaimsProvider.Call ClaimsPayload))
    (custom : CustomClaims.t) (x : Ext)
    (base : BaseClaims.t) (userInfo : UserInfoClaims.t) :
  ClaimsProvider.supplyCustomClaims this tokenData userInfoData (ext w)
    = (Returned custom, x) ->
  _readBaseClaims tokenData = Returned base ->
  _readUserInfoClaims userInfoData = Returned userInfo ->
  supplyClaims this tokenData userInfoData w
  = (Returned (ApiClaims.mk base userInfo custom),
     mkWorld x
       (calls w ++ [ClaimsProvider.SupplyCustomClaims tokenData userInfoData]))
  /\ forall claims w',
       supplyClaims this tokenData userInfoData w = (Returned claims, w') ->
       ApiClaims.token claims = base /\
       ApiClaims.userInfo claims = userInfo /\
       ApiClaims.custom claims = custom /\
       ext w' = x.
Proof.
  intros Hc Hb Hu.
  assert (Hret : supplyClaims this tokenData userInfoData w
    = (Returned (ApiClaims.mk base userInfo custom),
       mkWorld x
         (calls w ++ [ClaimsProvider.SupplyCustomClaims tokenData userInfoData]))).
  { apply supplyClaims_returned. exists custom, x, base, userInfo. auto. }
  split; [exact Hret|].
  intros claims w' H. rewrite Hret in H. inversion H; subst. auto.
Qed.

(** C6.  The method [supplyCustomClaims] of the class itself returns the
    empty custom claims for every pair of payloads and leaves the world as
    it is; and [supplyClaims] calls the supplier of its provider once,
    whatever the supplier does: the record of calls grows by this one call,
    and the world outside is the one a single run of the supplier leaves. *)
Theorem default_custom_claims_empty_supplier_called_once :
  (forall (tokenData userInfoData : ClaimsPayload) (x : Ext),
      ClaimsProvider.supplyCustomClaims ClaimsProvider.base
        tokenData userInfoData x
      = (Returned (∅ : CustomClaims.t), x)) /\
  (forall (this : Provider) (tokenData userInfoData : ClaimsPayload)
          (w : World Ext (ClaimsProvider.Call ClaimsPayload)),
      let w' := snd (supplyClaims this tokenData userInfoData w) in
      calls w'
      = (calls w ++ [ClaimsProvider.SupplyCustomClaims tokenData userInfoData])%list
      /\
      ext w'
      = snd (ClaimsProvider.supplyCustomClaims this tokenData userInfoData
               (ext w))).
Proof.
  split; [reflexivity|].
  intros this tokenData userInfoData w.
  unfold ClaimsProvider.supplyClaims, bind, call, liftResult, ret.
  destruct (ClaimsProvider.supplyCustomClaims this tokenData userInfoData (ext w))
    as [[custom|e] x]; simpl; [|auto].
  destruct (_readBaseClaims tokenData) as [base|e]; simpl; [|auto].
  destruct (_readUserInfoClaims userInfoData) as [userInfo|e]; simpl; auto.
Qed.

End ClaimsProviderFacts.

Lemma readBaseClaims_of_token_witness :
  TestData.getClaim TestData.tokenData "sub" = Returned TestData.guestUserId /\
  TestData.getClaim TestData.tokenData "scope" = Returned TestData.tokenScope /\
  TestData.getClaim TestData.tokenData "exp" = Returned "1762099230" /\
  exists base,
    ClaimsProvider._readBaseClaims TestData.getClaim TestData.tokenData
      = Returned base /\
    BaseClaims.subject base = TestData.guestUserId /\
    BaseClaims.scopes base
      = ["openid"; "profile"; "https://api.authsamples.com/investments"] /\
    BaseClaims.expiry base = JS.Finite false 1762099230.
Proof.
  assert (H1 : TestData.getClaim TestData.tokenData "sub"
               = Returned TestData.guestUserId) by reflexivity.
  assert (H2 : TestData.getClaim TestData.tokenData "scope"
               = Returned TestData.tokenScope) by reflexivity.
  assert (H3 : TestData.getClaim TestData.tokenData "exp"
               = Returned "1762099230") by reflexivity.
  repeat (split; [assumption|]).
  destruct (readBaseClaims_of_token (Ext := unit) TestData.getClaim
              TestData.tokenData _ _ _ H1 H2 H3)
    as (base & Hr & Hs & Hsc & _ & _ & _ & He & _).
  exists base. repeat split; [exact Hr | exact Hs | | ].
  - rewrite Hsc. reflexivity.
  - rewrite He. reflexivity.
Defined.

Lemma readUserInfoClaims_of_payload_witness :
  TestData.getClaim TestData.userInfoData "given_name" = Returned "Guest" /\
  TestData.getClaim TestData.userInfoData "family_name" = Returned "User" /\
  TestData.getClaim TestData.userInfoData "email"
    = Returned "guestuser@mycompany.com" /\
  ClaimsProvider._readUserInfoClaims TestData.getClaim TestData.userInfoData
    = Returned (UserInfoClaims.mk "Guest" "User" "guestuser@mycompany.com").
Proof.
  assert (H1 : TestData.getClaim TestData.userInfoData "given_name"
               = Returned "Guest") by reflexivity.
  assert (H2 : TestData.getClaim TestData.userInfoData "family_name"
               = Returned "User") by reflexivity.
  assert (H3 : TestData.getClaim TestData.userInfoData "email"
               = Returned "guestuser@mycompany.com") by reflexivity.
  repeat (split; [assumption|]).
  exact (proj1 (readUserInfoClaims_of_payload TestData.getClaim
                  TestData.userInfoData _ _ _ H1 H2 H3)).
Defined.

Lemma supplyClaims_composes_witness :
  ClaimsProvider.supplyClaims TestData.getClaim ClaimsProvider.base
    TestData.tokenData TestData.userInfoData (mkWorld tt [])
  = (Returned
       (ApiClaims.mk
          (BaseClaims.mk TestData.guestUserId
             ["openid"; "profile"; "https://api.authsamples.com/investments"]
             (JS.Finite false 1762099230))
          (UserInfoClaims.mk "Guest" "User" "guestuser@mycompany.com")
          CustomClaims.new),
     mkWorld tt
       [ClaimsProvider.SupplyCustomClaims TestData.tokenData
          TestData.userInfoData]).
Proof.
  refine (proj1 (supplyClaims_composes TestData.getClaim ClaimsProvider.base
                   TestData.tokenData TestData.userInfoData (mkWorld tt [])
                   CustomClaims.new tt _ _ _ _ _)); reflexivity.
Defined.

(* ===================================================================== *)
(** * baseErrorCodes.ts: the codes of the error responses *)
(* ===================================================================== *)

(** C5.  Each of the three failure kinds has one fixed code, a constant of
    [BaseErrorCodes]: [unauthorized] for an unauthorized outcome,
    [server_error] for a dependency failure and [exception_simulation] for
    the simulated exception; no kind has another code, and the three codes
    differ from each other. *)
Theorem external_codes_fixed :
  ErrorTaxonomy.externalCode ErrorTaxonomy.UnauthorizedError = "unauthorized" /\
  ErrorTaxonomy.externalCode ErrorTaxonomy.DependencyError = "server_error" /\
  ErrorTaxonomy.externalCode ErrorTaxonomy.SimulatedException
    = "exception_simulation" /\
  BaseErrorCodes.unauthorizedRequest = "unauthorized" /\
  BaseErrorCodes.serverError = "server_error" /\
  BaseErrorCodes.exceptionSimulation = "exception_simulation" /\
  (forall k,
      In (ErrorTaxonomy.externalCode k)
         [BaseErrorCodes.unauthorizedRequest; BaseErrorCodes.serverError;
          BaseErrorCodes.exceptionSimulation]) /\
  (forall k k',
      ErrorTaxonomy.externalCode k = ErrorTaxonomy.externalCode k' <-> k = k').
Proof.
  repeat (split; [reflexivity|]).
  split.
  - intros []; simpl; auto.
  - intros k k'; split; [|now intros ->].
    destruct k, k'; simpl; intros H; try reflexivity; discriminate H.
Qed.

(* ===================================================================== *)
(** * baseCompositionRoot.ts: the cache of the authorizer *)
(* ===================================================================== *)

(** C3.  [_createOAuthCache] gives the [AwsCache] in every process: in a
    local process too, where its comment and its commented-out statement
    have the development cache. *)
Theorem createOAuthCache_ignores_environment :
  (forall process this,
      BaseCompositionRoot._createOAuthCache process this
      = BaseCompositionRoot.AwsCache
          (BaseCompositionRoot._cacheConfiguration this)
          (BaseCompositionRoot._claimsProvider this)) /\
  (forall this,
      BaseCompositionRoot._createOAuthCache TestData.localProcess this
      <> BaseCompositionRoot.DevelopmentCache /\
      BaseCompositionRoot._createOAuthCache_documented TestData.localProcess this
      = BaseCompositionRoot.DevelopmentCache /\
      BaseCompositionRoot._createOAuthCache TestData.awsProcess this
      = BaseCompositionRoot._createOAuthCache_documented TestData.awsProcess
          this).
Proof.
  split; [reflexivity|].
  intros this. repeat split. discriminate.
Qed.

(* ===================================================================== *)
(** * jsonFileReader.ts *)
(* ===================================================================== *)

Section JsonFileReaderFacts.
Context {Ext Buffer : Type}.
Context (fs_readFile : string -> External Ext JS.value Buffer).
Context (Buffer_toString : Buffer -> Result JS.value string).
Context (JSON_parse : string -> Result JS.value JS.value).
Context (fileReadError : string).

Abbreviation readData :=
  (JsonFileReader.readData fs_readFile Buffer_toString JSON_parse fileReadError).
Abbreviation readData_catch := (JsonFileReader.readData_catch fileReadError).

(** The [catch] block on an exception that is an object or a primitive
    other than [undefined] and [null]: it throws the server error, with the
    details taken from the exception. *)
Lemma readData_catch_throws (e : JS.value) :
  e <> JS.Undefined -> e <> JS.Null ->
  exists error,
    readData_catch e = Thrown (ServerErrorEx error) /\
    ServerError.errorCode error = fileReadError /\
    ServerError.message error = "Problem encountered reading data" /\
    JS.getProp e "stack" = inr (ServerError.stack error) /\
    (JS.instanceofError e = true ->
     JS.getProp e "message" = inr (ServerError.details error)) /\
    (JS.instanceofError e = false -> ServerError.details error = e).
Proof.
  intros Hu Hn. unfold JsonFileReader.readData_catch, getProperty.
  destruct e as [| |b|n|s|isError props]; try congruence; simpl;
    try (eexists; repeat split; simpl; try reflexivity; discriminate).
  destruct isError; simpl;
    eexists; repeat split; simpl; try reflexivity; discriminate.
Qed.

(** The [catch] block on [undefined] or [null]: reading [e.stack] throws. *)
Lemma readData_catch_nullish (e : JS.value) :
  e = JS.Undefined \/ e = JS.Null ->
  exists typeError,
    JS.instanceofError typeError = true /\
    readData_catch e = Thrown (JsThrown typeError).
Proof.
  intros [-> | ->]; eexists; (split; [|reflexivity]); reflexivity.
Qed.

(** C10.  When the platform throws objects or primitives other than
    [undefined] and [null], as [fs.readFile], [buffer.toString()] and
    [JSON.parse] do, [readData] reads the file once and then either returns
    the contents of the file parsed as JSON, or throws a server error with
    the code [fileReadError], the message [Problem encountered reading data]
    and the details of the exception [e] of the platform: [e.message] when
    [e] is an [Error], [e] itself otherwise.  Nothing else leaves
    [readData]. *)
Theorem readData_outcomes (filePath : string)
    (w : World Ext JsonFileReader.Call) :
  (forall p x e x', fs_readFile p x = (Thrown e, x') ->
                    e <> JS.Undefined /\ e <> JS.Null) ->
  (forall buffer e, Buffer_toString buffer = Thrown e ->
                    e <> JS.Undefined /\ e <> JS.Null) ->
  (forall text e, JSON_parse text = Thrown e ->
                  e <> JS.Undefined /\ e <> JS.Null) ->
  exists r x,
    readData filePath w
    = (r, mkWorld x (calls w ++ [JsonFileReader.ReadFile filePath])%list) /\
    x = snd (fs_readFile filePath (ext w)) /\
    ((exists buffer text data,
         fs_readFile filePath (ext w) = (Returned buffer, x) /\
         Buffer_toString buffer = Returned text /\
         JSON_parse text = Returned data /\
         r = Returned data)
     \/
     (exists e error,
         (fs_readFile filePath (ext w) = (Thrown e, x) \/
          exists buffer,
            fs_readFile filePath (ext w) = (Returned buffer, x) /\
            (Buffer_toString buffer = Thrown e \/
             exists text,
               Buffer_toString buffer = Returned text /\
               JSON_parse text = Thrown e)) /\
         r = Thrown (ServerErrorEx error) /\
         ServerError.errorCode error = fileReadError /\
         ServerError.message error = "Problem encountered reading data" /\
         (JS.instanceofError e = true ->
          JS.getProp e "message" = inr (ServerError.details error)) /\
         (JS.instanceofError e = false -> ServerError.details error = e))).
Proof.
  intros Hfs Hstr Hjson.
  assert (Hcatch : forall e x,
             e <> JS.Undefined /\ e <> JS.Null ->
             (fs_readFile filePath (ext w) = (Thrown e, x) \/
              exists buffer,
                fs_readFile filePath (ext w) = (Returned buffer, x) /\
                (Buffer_toString buffer = Thrown e \/
                 exists text,
                   Buffer_toString buffer = Returned text /\
                   JSON_parse text = Thrown e)) ->
             exists r,
               readData_catch e = r /\
               exists e0 error,
                 (fs_readFile filePath (ext w) = (Thrown e0, x) \/
                  exists buffer,
                    fs_readFile filePath (ext w) = (Returned buffer, x) /\
                    (Buffer_toString buffer = Thrown e0 \/
                     exists text,
                       Buffer_toString buffer = Returned text /\
                       JSON_parse text = Thrown e0)) /\
                 r = Thrown (ServerErrorEx error) /\
                 ServerError.errorCode error = fileReadError /\
                 ServerError.message error
                 = "Problem encountered reading data" /\
                 (JS.instanceofError e0 = true ->
                  JS.getProp e0 "message" = inr (ServerError.details error)) /\
                 (JS.instanceofError e0 = false ->
                  ServerError.details error = e0)).
  { intros e x [Hu Hn] Hfrom.
    destruct (readData_catch_throws e Hu Hn)
      as (error & Hc & Hcode & Hmsg & _ & Hd1 & Hd2).
    exists (Thrown (ServerErrorEx error)). split; [exact Hc|].
    exists e, error. auto 10. }
  unfold JsonFileReader.readData, tryCatch, bind, call, liftResult.
  destruct (fs_readFile filePath (ext w)) as [[buffer|e] x] eqn:Hread.
  - destruct (Buffer_toString buffer) as [text|e] eqn:Htext.
    + destruct (JSON_parse text) as [data|e] eqn:Hparse.
      * exists (Returned data), x. repeat split. left. eauto 10.
      * destruct (Hcatch e x (Hjson _ _ Hparse)) as (r & Hc & Hr); [eauto 10|].
        exists r, x. rewrite Hc. auto.
    + destruct (Hcatch e x (Hstr _ _ Htext)) as (r & Hc & Hr); [eauto 10|].
      exists r, x. rewrite Hc. auto.
  - destruct (Hcatch e x (Hfs _ _ _ _ Hread)) as (r & Hc & Hr); [eauto|].
    exists r, x. rewrite Hc. auto.
Qed.

End JsonFileReaderFacts.

Example readData_missing_file :
  JsonFileReader.readData TestData.fs_readFile TestData.Buffer_toString
    TestData.JSON_parse
    "file_read_error" "data/missing.json" (mkWorld TestData.files [])
  = (Thrown
       (ServerErrorEx
          (ServerError.mk "file_read_error" "Problem encountered reading data"
             (JS.Str "Error: ENOENT: no such file or directory, open 'data/missing.json'")
             (JS.Str "ENOENT: no such file or directory, open 'data/missing.json'"))),
     mkWorld TestData.files [JsonFileReader.ReadFile "data/missing.json"]).
Proof. reflexivity. Qed.

Example readData_broken_file :
  JsonFileReader.readData TestData.fs_readFile TestData.Buffer_toString
    TestData.JSON_parse
    "file_read_error" "data/broken.json" (mkWorld TestData.files [])
  = (Thrown
       (ServerErrorEx
          (ServerError.mk "file_read_error" "Problem encountered reading data"
             (JS.Str "SyntaxError: Unexpected token in JSON")
             (JS.Str "Unexpected token in JSON"))),
     mkWorld TestData.files [JsonFileReader.ReadFile "data/broken.json"]).
Proof. reflexivity. Qed.

Example readData_good_file :
  JsonFileReader.readData TestData.fs_readFile TestData.Buffer_toString
    TestData.JSON_parse
    "file_read_error" "data/empty.json" (mkWorld TestData.files [])
  = (Returned (JS.Object false []),
     mkWorld TestData.files [JsonFileReader.ReadFile "data/empty.json"]).
Proof. reflexivity. Qed.

Lemma readData_outcomes_witness :
  (forall p x e x', TestData.fs_readFile p x = (Thrown e, x') ->
                    e <> JS.Undefined /\ e <> JS.Null) /\
  (forall buffer e, TestData.Buffer_toString buffer = Thrown e ->
                    e <> JS.Undefined /\ e <> JS.Null) /\
  (forall text e, TestData.JSON_parse text = Thrown e ->
                  e <> JS.Undefined /\ e <> JS.Null) /\
  exists r x,
    JsonFileReader.readData TestData.fs_readFile TestData.Buffer_toString
    TestData.JSON_parse
      "file_read_error" "data/missing.json" (mkWorld TestData.files [])
    = (r, mkWorld x [JsonFileReader.ReadFile "data/missing.json"]) /\
    x = TestData.files.
Proof.
  assert (H1 : forall p x e x', TestData.fs_readFile p x = (Thrown e, x') ->
                                e <> JS.Undefined /\ e <> JS.Null).
  { intros p x e x'. unfold TestData.fs_readFile.
    destruct (x !! p); intros H; inversion H; split; discriminate. }
  assert (H2 : forall text e, TestData.JSON_parse text = Thrown e ->
                              e <> JS.Undefined /\ e <> JS.Null).
  { intros text e. unfold TestData.JSON_parse.
    repeat (destruct (String.eqb text _); [discriminate|]).
    intros H; inversion H; split; discriminate. }
  assert (H3 : forall buffer e, TestData.Buffer_toString buffer = Thrown e ->
                                e <> JS.Undefined /\ e <> JS.Null)
    by (intros buffer e H; discriminate H).
  split; [exact H1|]. split; [exact H3|]. split; [exact H2|].
  destruct (readData_outcomes TestData.fs_readFile TestData.Buffer_toString
              TestData.JSON_parse "file_read_error" "data/missing.json"
              (mkWorld TestData.files []) H1 H3 H2)
    as (r & x & Hrun & Hx & _).
  exists r, x. split; [exact Hrun | exact Hx].
Defined.

(* ===================================================================== *)
(** * getCompanyTransactions.ts: the lambda handler *)
(* ===================================================================== *)

(** A positive integer is neither [NaN] nor at most zero; the other numbers
    of [parseInt] are [NaN] or at most zero, but for [+Infinity]. *)
Lemma positive_integer_accepted (m : N) :
  (0 < m)%N ->
  JS.isNaN (JS.Finite false m) = false /\
  JS.le (JS.Finite false m) JS.zero = false.
Proof.
  intros Hm. split; [reflexivity|]. simpl. apply Z.leb_gt. lia.
Qed.

Lemma accepted_number (n : JS.number) :
  JS.isNaN n = false -> JS.le n JS.zero = false ->
  n = JS.Infinity false \/ exists m, (0 < m)%N /\ n = JS.Finite false m.
Proof.
  destruct n as [|[]|[] m]; simpl; try discriminate; auto; intros _ H.
  - apply Z.leb_gt in H. lia.
  - apply Z.leb_gt in H. right. exists m. split; [lia | reflexivity].
Qed.

Section GetCompanyTransactionsFacts.
Context {Ext Service Companies : Type}.
Context (container_get : External Ext Exception Service).
Context (getCompanyTransactions :
           Service -> JS.number -> External Ext Exception Companies).
Context (invalidCompanyId : string).

Abbreviation baseHandler :=
  (GetCompanyTransactions.baseHandler
     container_get getCompanyTransactions invalidCompanyId).

(** C4, as the code has it.  For an event with path parameters, let [id] be
    [parseInt] of the parameter [id] in base 10.  When [id] is [NaN] or at
    most zero the handler throws the client error with status 400, the code
    [invalidCompanyId] and its message, and the world is untouched: the
    service is neither resolved nor called.  Otherwise the handler resolves
    the service and calls it once with [id]; it returns the response with
    status 200 and the result of the service when the service returns one,
    and it throws what the resolution or the service throws. *)
Theorem baseHandler_outcomes
    (event : GetCompanyTransactions.APIGatewayEvent)
    (params : gmap string string)
    (w : World Ext (GetCompanyTransactions.Call Service)) :
  GetCompanyTransactions.pathParameters event = Some params ->
  let id := JS.parseInt (GetCompanyTransactions.idToString (params !! "id")) 10 in
  (JS.isNaN id = true \/ JS.le id JS.zero = true ->
   baseHandler event w
   = (Thrown (ClientErrorEx
                (ClientError.mk 400 invalidCompanyId
                   "The company id must be a positive numeric integer")),
      w))
  /\
  (JS.isNaN id = false -> JS.le id JS.zero = false ->
   match container_get (ext w) with
   | (Thrown e, x) =>
       baseHandler event w
       = (Thrown e,
          mkWorld x (calls w ++ [GetCompanyTransactions.ContainerGet])%list)
   | (Returned service, x) =>
       let '(r, x') := getCompanyTransactions service id x in
       baseHandler event w
       = (match r with
          | Returned companies =>
              Returned (GetCompanyTransactions.objectResponse 200 companies)
          | Thrown e => Thrown e
          end,
          mkWorld x'
            ((calls w ++ [GetCompanyTransactions.ContainerGet]) ++
             [GetCompanyTransactions.ServiceGetCompanyTransactions service id])%list)
   end).
Proof.
  intros Hparams id. subst id.
  unfold GetCompanyTransactions.baseHandler, bind. rewrite Hparams.
  unfold ret, throw, call. cbv beta iota.
  remember (JS.parseInt (GetCompanyTransactions.idToString (params !! "id")) 10)
    as id eqn:Hid.
  clear Hid. split.
  - intros Hbad.
    assert (Hcond : JS.isNaN id || JS.le id JS.zero = true)
      by (apply orb_true_iff; exact Hbad).
    rewrite Hcond. reflexivity.
  - intros H1 H2. rewrite H1, H2. simpl.
    destruct (container_get (ext w)) as [[service|e] x]; simpl; [|reflexivity].
    destruct (getCompanyTransactions service id x) as [[companies|e] x'];
      reflexivity.
Qed.

End GetCompanyTransactionsFacts.

Lemma baseHandler_outcomes_witness :
  GetCompanyTransactions.pathParameters (TestData.transactionsEvent "2")
    = Some {[ "id" := "2" ]} /\
  JS.parseInt "2" 10 = JS.Finite false 2 /\
  GetCompanyTransactions.baseHandler
    TestData.container_get TestData.getCompanyTransactions "invalid_company_id"
    (TestData.transactionsEvent "2") (mkWorld tt [])
  = (Returned (GetCompanyTransactions.objectResponse 200
                 (TestData.mkCompanyTransactions 2 8)),
     mkWorld tt
       [GetCompanyTransactions.ContainerGet;
        GetCompanyTransactions.ServiceGetCompanyTransactions tt
          (JS.Finite false 2)]).
Proof.
  split; [reflexivity|]. split; [reflexivity|].
  exact (proj2 (baseHandler_outcomes
                  TestData.container_get TestData.getCompanyTransactions
                  "invalid_company_id" (TestData.transactionsEvent "2")
                  {[ "id" := "2" ]} (mkWorld tt []) eq_refl)
           eq_refl eq_refl).
Defined.

Example baseHandler_malformed_id :
  GetCompanyTransactions.baseHandler
    TestData.container_get TestData.getCompanyTransactions "invalid_company_id"
    (TestData.transactionsEvent "abc") (mkWorld tt [])
  = (Thrown (ClientErrorEx
               (ClientError.mk 400 "invalid_company_id"
                  "The company id must be a positive numeric integer")),
     mkWorld tt []).
Proof. reflexivity. Qed.

(** C4, as it is written, fails.  The parameter [3] parses to the positive
    integer 3, the service is called with it, and the service of the tests
    answers that the company is not found: the handler throws this error and
    returns no response with status 200. *)
Lemma baseHandler_positive_id_without_200 :
  JS.parseInt "3" 10 = JS.Finite false 3 /\
  GetCompanyTransactions.baseHandler
    TestData.container_get TestData.getCompanyTransactions "invalid_company_id"
    (TestData.transactionsEvent "3") (mkWorld tt [])
  = (Thrown (ClientErrorEx
               (ClientError.mk 404 "company_not_found"
                  "Company not found for the user")),
     mkWorld tt
       [GetCompanyTransactions.ContainerGet;
        GetCompanyTransactions.ServiceGetCompanyTransactions tt
          (JS.Finite false 3)]) /\
  ~ (exists companies w',
        GetCompanyTransactions.baseHandler
          TestData.container_get TestData.getCompanyTransactions
          "invalid_company_id"
          (TestData.transactionsEvent "3") (mkWorld tt [])
        = (Returned (GetCompanyTransactions.objectResponse 200 companies), w')).
Proof.
  split; [reflexivity|]. split; [reflexivity|].
  intros (companies & w' & H). vm_compute in H. discriminate H.
Qed.

(* ===================================================================== *)
(** * middlewareHelper.ts: the guard on the claims *)
(* ===================================================================== *)

Section MiddlewareHelperFacts.
Import MiddlewareHelper.
Context {Ext : Type}.
Context (cors : ICorsOptions -> Middy.Middleware Ext).
Context (exceptionMiddleware : Middy.Middleware Ext).
Context (operation : JS.value -> JS.value -> External Ext Exception JS.value).

(** The async function of [enrichApiOperation], run. *)
Lemma apiOperation_run (event context : JS.value) (w : World Ext Call) :
  apiOperation operation event context w
  = match JS.getProp event "claims" with
    | inl typeError =>
        (Thrown (JsThrown typeError),
         mkWorld (ext w) (calls w ++ firstLines context)%list)
    | inr claims =>
        if JS.truthy claims then
          (fst (operation event context (ext w)),
           mkWorld (snd (operation event context (ext w)))
             (calls w ++ debugLines context claims
                ++ [Operation event context])%list)
        else
          (Returned JS.Undefined,
           mkWorld (ext w) (calls w ++ debugLines context claims)%list)
    end.
Proof.
  unfold apiOperation, console_log, getProperty, bind, call, ret, liftResult,
    debugLines, firstLines.
  cbn [ext calls]. rewrite <- !app_assoc. cbn [app].
  destruct (JS.getProp event "claims") as [typeError|claims]; [reflexivity|].
  cbn [ext calls]. rewrite <- !app_assoc. cbn [app].
  destruct (JS.truthy claims); [|reflexivity].
  cbn [ext calls].
  destruct (operation event context (ext w)) as [r x]. cbn [fst snd].
  rewrite <- !app_assoc. reflexivity.
Qed.

(** The instance that [enrichApiOperation] returns: the function with the
    hooks of the two middlewares, the [after] hook of the exception
    middleware before the one of cors. *)
Lemma enrichApiOperation_instance (this : t) (m : Middy.t Ext Call) :
  enrichApiOperation cors exceptionMiddleware operation this = Returned m ->
  Middy.handler m = apiOperation operation /\
  Middy.beforeMiddlewares m
  = (Middy.hooks (Middy.before (cors (_corsConfig this)))
       ++ Middy.hooks (Middy.before exceptionMiddleware))%list /\
  Middy.afterMiddlewares m
  = (Middy.hooks (Middy.after exceptionMiddleware)
       ++ Middy.hooks (Middy.after (cors (_corsConfig this))))%list /\
  Middy.errorMiddlewares m
  = (Middy.hooks (Middy.onError (cors (_corsConfig this)))
       ++ Middy.hooks (Middy.onError exceptionMiddleware))%list.
Proof.
  unfold enrichApiOperation, Middy.use, Middy.middy, rbind.
  destruct (cors (_corsConfig this)) as [[b1|] [a1|] [e1|]];
    destruct exceptionMiddleware as [[b2|] [a2|] [e2|]]; simpl;
    intros H; inversion H; subst; simpl; auto.
Qed.

(** C9, as the code has it.  The handler that [enrichApiOperation] returns
    runs the [before] hooks of its middlewares and then its function on the
    event that they leave.  The function calls the wrapped operation, once,
    exactly when the claims of that event are truthy; reading the claims of
    an event that is [undefined] or [null] throws.  When the claims are not
    truthy the function returns [undefined]: it throws nothing and calls
    nothing but [console.log]; the handler then gives what the [after]
    hooks, the one of the exception middleware and then the one of cors,
    make of this response, which need not be [undefined]. *)
Theorem enrichApiOperation_handler (this : t) (m : Middy.t Ext Call)
    (event context : JS.value) (w : World Ext Call) :
  enrichApiOperation cors exceptionMiddleware operation this = Returned m ->
  Middy.afterMiddlewares m
  = (Middy.hooks (Middy.after exceptionMiddleware)
       ++ Middy.hooks (Middy.after (cors (_corsConfig this))))%list /\
  let started :=
    Middy.runMiddlewares (Middy.beforeMiddlewares m)
      (Middy.mkInstance event context JS.Null None) (ext w) in
  let h1 := fst (fst started) in
  let x1 := snd started in
  let r := fst (Middy.invoke m event context w) in
  let w' := snd (Middy.invoke m event context w) in
  exists made,
    calls w' = (calls w ++ made)%list /\
    (existsb isOperation made = true <->
     snd (fst started) = None /\
     exists claims,
       JS.getProp (Middy.event h1) "claims" = inr claims /\
       JS.truthy claims = true) /\
    match snd (fst started) with
    | Some e => made = [] /\ (r, ext w') = Middy.errorHandler m e h1 x1
    | None =>
        match JS.getProp (Middy.event h1) "claims" with
        | inl typeError =>
            made = firstLines context /\
            (r, ext w')
            = Middy.errorHandler m (JsThrown typeError)
                (Middy.setResponse h1 JS.Null) x1
        | inr claims =>
            if JS.truthy claims then
              made = (debugLines context claims
                        ++ [Operation (Middy.event h1) context])%list /\
              (r, ext w')
              = match operation (Middy.event h1) context x1 with
                | (Returned v, x2) =>
                    Middy.afterPhase m (Middy.setResponse h1 v) x2
                | (Thrown e, x2) =>
                    Middy.errorHandler m e (Middy.setResponse h1 JS.Null) x2
                end
            else
              made = debugLines context claims /\
              (r, ext w')
              = Middy.afterPhase m (Middy.setResponse h1 JS.Undefined) x1
        end
    end.
Proof.
  intros Hm.
  destruct (enrichApiOperation_instance this m Hm) as (Hh & _ & Ha & _).
  split; [exact Ha|].
  intros started h1 x1 r w'. subst r w' h1 x1. unfold Middy.invoke.
  rewrite Hh. fold started.
  destruct started as [[h1 [e|]] x1]; cbn [fst snd].
  - destruct (Middy.errorHandler m e h1 x1) as [r x]. cbn [fst snd ext calls].
    exists []. rewrite app_nil_r. split; [reflexivity|]. split; [|auto].
    simpl. split; [discriminate | intros [H _]; discriminate].
  - rewrite apiOperation_run. cbn [ext calls].
    destruct (JS.getProp (Middy.event h1) "claims") as [typeError|claims].
    + cbv beta iota. cbn [ext calls].
      destruct (Middy.errorHandler m (JsThrown typeError)
                  (Middy.setResponse h1 JS.Null) x1) as [r x].
      cbn [fst snd ext calls].
      exists (firstLines context). split; [reflexivity|]. split; [|auto].
      simpl. split; [discriminate | intros (_ & c & H & _); discriminate].
    + destruct (JS.truthy claims) eqn:Htruthy.
      * destruct (operation (Middy.event h1) context x1) as [[v|e] x2];
          cbn [fst snd]; cbv beta iota; cbn [ext calls].
        -- destruct (Middy.afterPhase m (Middy.setResponse h1 v) x2) as [r x].
           cbn [fst snd ext calls].
           exists (debugLines context claims
                     ++ [Operation (Middy.event h1) context])%list.
           split; [reflexivity|]. split; [|auto].
           split; [eauto | reflexivity].
        -- destruct (Middy.errorHandler m e (Middy.setResponse h1 JS.Null) x2)
             as [r x].
           cbn [fst snd ext calls].
           exists (debugLines context claims
                     ++ [Operation (Middy.event h1) context])%list.
           split; [reflexivity|]. split; [|auto].
           split; [eauto | reflexivity].
      * cbv beta iota. cbn [ext calls].
        destruct (Middy.afterPhase m (Middy.setResponse h1 JS.Undefined) x1)
          as [r x].
        cbn [fst snd ext calls].
        exists (debugLines context claims). split; [reflexivity|].
        split; [|auto].
        simpl. split; [discriminate|].
        intros (_ & c & H & Hc). inversion H; subst. congruence.
Qed.

End MiddlewareHelperFacts.

Lemma enrichApiOperation_handler_witness :
  exists m,
    MiddlewareHelper.enrichApiOperation TestData.cors
      TestData.exceptionMiddleware TestData.echoClaims
      TestData.middlewareHelper = Returned m /\
    Middy.afterMiddlewares m
    = [TestData.corsAfter
         (MiddlewareHelper.mkCorsOptions ["https://web.mycompany.com"])] /\
    exists made,
      calls (snd (Middy.invoke m TestData.authorizedEvent JS.Null
                    (mkWorld tt [])))
      = made /\
      existsb MiddlewareHelper.isOperation made = true.
Proof.
  eexists. split; [reflexivity|].
  match goal with
  | |- Middy.afterMiddlewares ?m = _ /\ _ =>
      destruct (enrichApiOperation_handler TestData.cors
                  TestData.exceptionMiddleware TestData.echoClaims
                  TestData.middlewareHelper m TestData.authorizedEvent JS.Null
                  (mkWorld tt []) eq_refl) as (Ha & made & Hcalls & Hiff & _)
  end.
  split; [exact Ha|].
  exists made. split; [exact Hcalls|].
  apply Hiff. split; [reflexivity|].
  eexists. split; reflexivity.
Defined.

(** C9, as it is written, fails.  For the event of an API gateway without
    claims the function of the handler returns [undefined] and the
    operation is not called, but the handler does not return [undefined]:
    the [after] hook of cors has made the response an object with the
    header of cors. *)
Lemma enrichApiOperation_without_claims_not_undefined :
  exists m,
    MiddlewareHelper.enrichApiOperation TestData.cors
      TestData.exceptionMiddleware TestData.failingOperation
      TestData.middlewareHelper = Returned m /\
    JS.getProp TestData.unauthorizedEvent "claims" = inr JS.Undefined /\
    MiddlewareHelper.apiOperation TestData.failingOperation
      TestData.unauthorizedEvent JS.Null (mkWorld tt [])
    = (Returned JS.Undefined,
       mkWorld tt (MiddlewareHelper.debugLines JS.Null JS.Undefined)) /\
    Middy.invoke m TestData.unauthorizedEvent JS.Null (mkWorld tt [])
    = (Returned
         (JS.Object false
            [("headers",
              JS.Object false
                [("Access-Control-Allow-Origin",
                  JS.Str "https://web.mycompany.com")])]),
       mkWorld tt (MiddlewareHelper.debugLines JS.Null JS.Undefined)) /\
    fst (Middy.invoke m TestData.unauthorizedEvent JS.Null (mkWorld tt []))
    <> Returned JS.Undefined.
Proof.
  eexists. split; [reflexivity|]. split; [reflexivity|].
  split; [reflexivity|]. split; [reflexivity|]. discriminate.
Qed.

Example enrichApiOperation_authorized :
  exists m,
    MiddlewareHelper.enrichApiOperation TestData.cors
      TestData.exceptionMiddleware TestData.echoClaims
      TestData.middlewareHelper = Returned m /\
    fst (Middy.invoke m TestData.authorizedEvent JS.Null (mkWorld tt []))
    = Returned
        (JS.Object false
           [("sub", JS.Str TestData.guestUserId);
            ("headers",
             JS.Object false
               [("Access-Control-Allow-Origin",
                 JS.Str "https://web.mycompany.com")])]).
Proof. eexists. split; reflexivity. Qed.

Example enrichApiOperation_operation_fails :
  exists m,
    MiddlewareHelper.enrichApiOperation TestData.cors
      TestData.exceptionMiddleware TestData.failingOperation
      TestData.middlewareHelper = Returned m /\
    fst (Middy.invoke m TestData.authorizedEvent JS.Null (mkWorld tt []))
    = Returned (JS.Object false [("statusCode", JS.Num (JS.Finite false 500))]).
Proof. eexists. split; reflexivity. Qed.

Example enrichApiOperation_null_event :
  exists m,
    MiddlewareHelper.enrichApiOperation TestData.cors
      TestData.exceptionMiddleware TestData.echoClaims
      TestData.middlewareHelper = Returned m /\
    Middy.invoke m JS.Null JS.Null (mkWorld tt [])
    = (Returned (JS.Object false [("statusCode", JS.Num (JS.Finite false 500))]),
       mkWorld tt (MiddlewareHelper.firstLines JS.Null)).
Proof. eexists. split; reflexivity. Qed.

(* ===================================================================== *)
(** * baseCompositionRoot.ts: the lifetimes of the OAuth objects *)
(* ===================================================================== *)

Section ContainerFacts.
Import Container.

Lemma get_bindings (id : BASETYPES.t) (st : State) :
  bindings (snd (get id st)) = bindings st.
Proof.
  unfold get. destruct (bindingsOf id st) as [|[v|c] [|b l]]; reflexivity.
Qed.

Lemma get_nextRef (id : BASETYPES.t) (st : State) :
  nextRef st <= nextRef (snd (get id st)).
Proof.
  unfold get. destruct (bindingsOf id st) as [|[v|c] [|b l]]; simpl; lia.
Qed.

Lemma resolveAll_bindings (ids : list BASETYPES.t) (st : State) :
  bindings (resolveAll ids st) = bindings st.
Proof.
  revert st. induction ids as [|id ids IH]; intros st; simpl; [reflexivity|].
  now rewrite IH, get_bindings.
Qed.

Lemma resolveAll_nextRef (ids : list BASETYPES.t) (st : State) :
  nextRef st <= nextRef (resolveAll ids st).
Proof.
  revert st. induction ids as [|id ids IH]; intros st; simpl; [lia|].
  pose proof (get_nextRef id st). pose proof (IH (snd (get id st))). lia.
Qed.

(** A resolution constructs a [JwksRetriever] only through a binding of
    the class in transient scope. *)
Lemma get_jwksRetrievers (id : BASETYPES.t) (st : State) :
  Forall (fun p => snd p <> Transient JwksRetriever) (bindings st) ->
  jwksRetrievers (snd (get id st)) = jwksRetrievers st.
Proof.
  intros Hno. unfold get.
  destruct (bindingsOf id st) as [|[v|c] [|b l]] eqn:Hb; try reflexivity.
  unfold jwksRetrievers. simpl. rewrite List.filter_app. simpl.
  destruct c; simpl; try apply app_nil_r.
  exfalso.
  assert (Hin : In (Transient JwksRetriever) (bindingsOf id st))
    by (rewrite Hb; left; reflexivity).
  unfold bindingsOf in Hin. apply in_map_iff in Hin as ([i b] & Hsnd & Hin).
  simpl in Hsnd. subst b.
  apply List.filter_In in Hin as [Hin _].
  rewrite List.Forall_forall in Hno. apply (Hno _ Hin). reflexivity.
Qed.

Lemma resolveAll_jwksRetrievers (ids : list BASETYPES.t) (st : State) :
  Forall (fun p => snd p <> Transient JwksRetriever) (bindings st) ->
  jwksRetrievers (resolveAll ids st) = jwksRetrievers st.
Proof.
  revert st. induction ids as [|id ids IH]; intros st Hno; simpl; [reflexivity|].
  rewrite IH by (now rewrite get_bindings). now apply get_jwksRetrievers.
Qed.

End ContainerFacts.

Section CompositionRootFacts.
Import Container.
Variable this : BaseCompositionRoot.t.

(** [register] on a new container: five objects are made, the last of them
    the [JwksRetriever], and ten bindings. *)
Lemma register_new_container (n : Ref) (cs : list (Class * Ref)) :
  BaseCompositionRoot.register this (mkState n cs [])
  = mkState (5 + n) (cs ++ [(JwksRetriever, 4 + n)])
      [(BASETYPES.LogEntry, ConstantValue (Some n));
       (BASETYPES.HttpProxy,
        ConstantValue (BaseCompositionRoot._httpProxy this));
       (BASETYPES.BaseClaims, ConstantValue (Some (1 + n)));
       (BASETYPES.UserInfoClaims, ConstantValue (Some (2 + n)));
       (BASETYPES.CustomClaims, ConstantValue (Some (3 + n)));
       (BASETYPES.OAuthConfiguration,
        ConstantValue (BaseCompositionRoot._oauthConfiguration this));
       (BASETYPES.JwksRetriever, ConstantValue (Some (4 + n)));
       (BASETYPES.AccessTokenRetriever, Transient AccessTokenRetriever);
       (BASETYPES.OAuthAuthenticator, Transient OAuthAuthenticator);
       (BASETYPES.JwtValidator, Transient JwtValidator)].
Proof. reflexivity. Qed.

Lemma get_jwksRetriever_registered (n : Ref) (cs : list (Class * Ref))
    (st' : State) :
  bindings st' = bindings (BaseCompositionRoot.register this (mkState n cs [])) ->
  get BASETYPES.JwksRetriever st' = (Returned (Some (4 + n)), st').
Proof.
  intros Hb. destruct st' as [n' cs' bs']. simpl in Hb. subst bs'.
  reflexivity.
Qed.

Lemma get_transient_registered (n : Ref) (cs : list (Class * Ref))
    (id : BASETYPES.t) (c : Class) (st' : State) :
  In (id, c) BaseCompositionRoot.transientBindings ->
  bindings st' = bindings (BaseCompositionRoot.register this (mkState n cs [])) ->
  get id st'
  = (Returned (Some (nextRef st')),
     mkState (S (nextRef st')) (constructed st' ++ [(c, nextRef st')])
       (bindings st')).
Proof.
  intros Hin Hb. destruct st' as [n' cs' bs']. simpl in Hb. subst bs'.
  simpl in Hin. destruct Hin as [E|[E|[E|[]]]]; inversion E; subst; reflexivity.
Qed.

(** C8.  On a new container [register] constructs one [JwksRetriever] and
    nothing else of the injectable classes; it binds this instance as a
    constant value and the three other classes in transient scope.
    Whatever resolutions follow, the resolution of [JwksRetriever] returns
    this one instance and leaves the state as it is, and no other
    [JwksRetriever] comes to exist.  The
    resolution of [AccessTokenRetriever], [OAuthAuthenticator] or
    [JwtValidator] constructs an instance of the class each time: two
    resolutions, with any resolutions between them, return two different
    references, both different from the one of the [JwksRetriever]. *)
Theorem register_lifetimes (st : State) :
  bindings st = [] ->
  exists j,
    constructed (BaseCompositionRoot.register this st)
    = (constructed st ++ [(JwksRetriever, j)])%list /\
    bindingsOf BASETYPES.JwksRetriever (BaseCompositionRoot.register this st)
    = [ConstantValue (Some j)] /\
    (forall id c,
        In (id, c) BaseCompositionRoot.transientBindings ->
        bindingsOf id (BaseCompositionRoot.register this st) = [Transient c]) /\
    (forall ids,
        let st' := resolveAll ids (BaseCompositionRoot.register this st) in
        get BASETYPES.JwksRetriever st' = (Returned (Some j), st') /\
        jwksRetrievers st' = (jwksRetrievers st ++ [(JwksRetriever, j)])%list) /\
    (forall id c,
        In (id, c) BaseCompositionRoot.transientBindings ->
        forall ids1 ids2,
          let sa := resolveAll ids1 (BaseCompositionRoot.register this st) in
          let sb := resolveAll ids2 (snd (get id sa)) in
          exists r1 r2,
            get id sa
            = (Returned (Some r1),
               mkState (S r1) (constructed sa ++ [(c, r1)]) (bindings sa)) /\
            get id sb
            = (Returned (Some r2),
               mkState (S r2) (constructed sb ++ [(c, r2)]) (bindings sb)) /\
            j < r1 /\ r1 < r2).
Proof.
  destruct st as [n cs bs]. intros Hnew. simpl in Hnew. subst bs.
  exists (4 + n). split; [reflexivity|]. split; [reflexivity|]. split; [|split].
  - intros id c Hin. simpl in Hin.
    destruct Hin as [E|[E|[E|[]]]]; inversion E; subst; reflexivity.
  - intros ids st'. split.
    + apply (get_jwksRetriever_registered n cs). apply resolveAll_bindings.
    + unfold st'. rewrite resolveAll_jwksRetrievers.
      * rewrite register_new_container. unfold jwksRetrievers. simpl.
        rewrite List.filter_app. reflexivity.
      * rewrite register_new_container. simpl.
        repeat (constructor; [discriminate|]). constructor.
  - intros id c Hin ids1 ids2 sa sb.
    assert (Ha : bindings sa
                 = bindings (BaseCompositionRoot.register this (mkState n cs [])))
      by apply resolveAll_bindings.
    assert (Hb : bindings sb
                 = bindings (BaseCompositionRoot.register this (mkState n cs []))).
    { unfold sb. now rewrite resolveAll_bindings, get_bindings. }
    exists (nextRef sa), (nextRef sb).
    pose proof (get_transient_registered n cs id c sa Hin Ha) as Hga.
    split; [exact Hga|].
    split; [exact (get_transient_registered n cs id c sb Hin Hb)|].
    split.
    + pose proof (resolveAll_nextRef ids1
                    (BaseCompositionRoot.register this (mkState n cs []))) as H.
      fold sa in H. change (5 + n <= nextRef sa) in H. lia.
    + pose proof (resolveAll_nextRef ids2 (snd (get id sa))) as H.
      fold sb in H. rewrite Hga in H. change (S (nextRef sa) <= nextRef sb) in H.
      lia.
Qed.

End CompositionRootFacts.

Lemma register_lifetimes_witness :
  Container.bindings TestData.startState = [] /\
  exists j,
    Container.constructed
      (BaseCompositionRoot.register TestData.compositionRoot
         TestData.startState)
    = [(Container.JwksRetriever, j)] /\
    fst (Container.get BASETYPES.JwksRetriever
           (Container.resolveAll
              [BASETYPES.JwtValidator; BASETYPES.JwksRetriever;
               BASETYPES.AccessTokenRetriever]
              (BaseCompositionRoot.register TestData.compositionRoot
                 TestData.startState)))
    = Returned (Some j).
Proof.
  split; [reflexivity|].
  destruct (register_lifetimes TestData.compositionRoot TestData.startState
              eq_refl) as (j & Hc & _ & _ & Hget & _).
  exists j. split; [exact Hc|].
  rewrite (proj1 (Hget [BASETYPES.JwtValidator; BASETYPES.JwksRetriever;
                        BASETYPES.AccessTokenRetriever])).
  reflexivity.
Defined.

Example register_then_resolve :
  let st := BaseCompositionRoot.register TestData.compositionRoot
              TestData.startState in
  fst (Container.get BASETYPES.JwksRetriever st) = Returned (Some 8) /\
  fst (Container.get BASETYPES.JwtValidator st) = Returned (Some 9) /\
  fst (Container.get BASETYPES.JwtValidator
         (snd (Container.get BASETYPES.JwtValidator st)))
  = Returned (Some 10) /\
  fst (Container.get BASETYPES.JwksRetriever
         (snd (Container.get BASETYPES.JwtValidator st)))
  = Returned (Some 8) /\
  fst (Container.get BASETYPES.OAuthConfiguration st) = Returned (Some 0) /\
  fst (Container.get BASETYPES.HttpProxy st) = Returned (Some 3).
Proof. repeat split. Qed.

Example createOAuthCache_of_root :
  BaseCompositionRoot._createOAuthCache TestData.localProcess
    TestData.compositionRoot
  = BaseCompositionRoot.AwsCache (Some 1) (Some 2).
Proof. reflexivity. Qed.

(* ===================================================================== *)
(** * Further properties *)
(* ===================================================================== *)

(** ** The built-ins *)

Lemma split_length (s : string) (sep : ascii) :
  length (JS.split s sep) = S (Text.count s sep).
Proof.
  induction s as [|c r IH]; simpl; [reflexivity|].
  destruct (Ascii.eqb c sep); simpl.
  - now rewrite IH.
  - destruct (JS.split r sep) as [|h t]; simpl in *; [discriminate|exact IH].
Qed.

Lemma trimStart_app (ws s : string) :
  Text.allWhiteSpace ws = true ->
  JS.trimStart (ws ++ s) = JS.trimStart s.
Proof.
  induction ws as [|c r IH]; simpl; [reflexivity|].
  intros H. apply andb_prop in H as [Hc Hr]. rewrite Hc. now apply IH.
Qed.

(** [parseInt] skips leading white space. *)
Lemma parseInt_skips_whitespace (ws s : string) (radix : Z) :
  Text.allWhiteSpace ws = true ->
  JS.parseInt (ws ++ s) radix = JS.parseInt s radix.
Proof.
  intros H. unfold JS.parseInt. now rewrite trimStart_app.
Qed.

Lemma isDecimalDigit_digitValue (c : ascii) :
  Text.isDecimalDigit c = true ->
  JS.digitValue c = Some (N_of_ascii c - 48)%N /\
  (N_of_ascii c - 48 < 10)%N.
Proof.
  unfold Text.isDecimalDigit, JS.digitValue. intros H. rewrite H.
  apply andb_prop in H as [H1 H2]. apply N.leb_le in H1, H2.
  split; [reflexivity | lia].
Qed.

Lemma not_decimalDigit_stops (c : ascii) :
  Text.isDecimalDigit c = false ->
  match JS.digitValue c with
  | Some d => (d <? 10)%N = false
  | None => True
  end.
Proof.
  unfold Text.isDecimalDigit, JS.digitValue. intros H. rewrite H.
  destruct ((97 <=? N_of_ascii c)%N && (N_of_ascii c <=? 122)%N) eqn:Ha.
  - apply andb_prop in Ha as [H1 H2]. apply N.leb_le in H1, H2.
    apply N.ltb_ge. lia.
  - destruct ((65 <=? N_of_ascii c)%N && (N_of_ascii c <=? 90)%N) eqn:Hb;
      [|exact I].
    apply andb_prop in Hb as [H1 H2]. apply N.leb_le in H1, H2.
    apply N.ltb_ge. lia.
Qed.

(** The decimal digits of [parseInt] end where the decimal digits of the
    string end. *)
Lemma radixDigits_app (d rest : string) (ds : list N) :
  JS.decimalDigits d = Some ds ->
  Text.startsWithDigit rest = false ->
  JS.radixDigits 10 (d ++ rest) = ds.
Proof.
  revert ds. induction d as [|c r IH]; simpl; intros ds Hd Hrest.
  - inversion Hd; subst. destruct rest as [|c r]; [reflexivity|].
    simpl in *. pose proof (not_decimalDigit_stops c Hrest) as H.
    destruct (JS.digitValue c); [now rewrite H | reflexivity].
  - change ((48 <=? N_of_ascii c)%N && (N_of_ascii c <=? 57)%N)
      with (Text.isDecimalDigit c) in Hd.
    destruct (Text.isDecimalDigit c) eqn:Hc; [|discriminate].
    destruct (JS.decimalDigits r) as [ds'|]; [|discriminate].
    simpl in Hd. inversion Hd; subst.
    destruct (isDecimalDigit_digitValue c Hc) as [Hv Hlt].
    rewrite Hv. apply N.ltb_lt in Hlt. rewrite Hlt.
    f_equal. now apply IH.
Qed.

Lemma digit_not_space_nor_sign (c : ascii) (r : string) :
  Text.isDecimalDigit c = true ->
  JS.trimStart (String c r) = String c r /\
  JS.stripSign (String c r) = (false, String c r).
Proof.
  unfold Text.isDecimalDigit. intros H.
  apply andb_prop in H as [H1 H2]. apply N.leb_le in H1, H2.
  assert (Hws : JS.isWhiteSpace c = false).
  { unfold JS.isWhiteSpace.
    repeat (apply orb_false_intro || apply andb_false_intro2);
      try (apply N.leb_gt; lia); apply N.eqb_neq; lia. }
  split.
  - simpl. now rewrite Hws.
  - unfold JS.stripSign.
    assert (Hm : c <> "-"%char) by (intros ->; vm_compute in H1; congruence).
    assert (Hp : c <> "+"%char) by (intros ->; vm_compute in H1; congruence).
    destruct c as [[] [] [] [] [] [] [] []]; try reflexivity; congruence.
Qed.

(** [parseInt] reads the leading decimal digits and ignores what follows
    them. *)
Lemma parseInt_ignores_rest (d rest : string) :
  d <> EmptyString ->
  (exists ds, JS.decimalDigits d = Some ds) ->
  Text.startsWithDigit rest = false ->
  JS.parseInt (d ++ rest) 10 = JS.parseInt d 10.
Proof.
  intros Hne [ds Hds] Hrest.
  destruct d as [|c r]; [congruence|].
  assert (Hc : Text.isDecimalDigit c = true).
  { simpl in Hds. unfold Text.isDecimalDigit.
    destruct ((48 <=? N_of_ascii c)%N && (N_of_ascii c <=? 57)%N);
      [reflexivity | discriminate]. }
  pose proof (radixDigits_app _ rest _ Hds Hrest) as H1.
  pose proof (radixDigits_decimal _ _ Hds) as H2.
  destruct (digit_not_space_nor_sign c (r ++ rest) Hc) as [Ht1 Hs1].
  destruct (digit_not_space_nor_sign c r Hc) as [Ht2 Hs2].
  unfold JS.parseInt.
  change (String c r ++ rest)%string with (String c (r ++ rest)) in *.
  rewrite Ht1, Hs1, Ht2, Hs2.
  change (JS.toInt32 10) with 10%Z.
  cbn -[JS.radixDigits JS.roundToDouble JS.mathInt].
  now rewrite H1, H2.
Qed.

Lemma radixDigits_nil_iff (s : string) :
  JS.radixDigits 10 s = [] <-> Text.startsWithDigit s = false.
Proof.
  destruct s as [|c r]; simpl; [tauto|].
  destruct (Text.isDecimalDigit c) eqn:Hc.
  - destruct (isDecimalDigit_digitValue c Hc) as [Hv Hlt].
    rewrite Hv. apply N.ltb_lt in Hlt. rewrite Hlt. split; discriminate.
  - pose proof (not_decimalDigit_stops c Hc) as H.
    destruct (JS.digitValue c); [rewrite H|]; tauto.
Qed.

(** [parseInt] in base 10 gives [NaN] exactly when no decimal digit comes
    after the leading white space and the sign. *)
Lemma parseInt_NaN_iff (s : string) :
  JS.parseInt s 10 = JS.NaN <->
  Text.startsWithDigit (snd (JS.stripSign (JS.trimStart s))) = false.
Proof.
  rewrite <- radixDigits_nil_iff. unfold JS.parseInt.
  destruct (JS.stripSign (JS.trimStart s)) as [neg S1]. simpl snd.
  change (JS.toInt32 10) with 10%Z.
  cbn -[JS.radixDigits JS.roundToDouble JS.mathInt].
  destruct (JS.radixDigits 10 S1) as [|d ds]; [tauto|].
  destruct (JS.roundToDouble (JS.mathInt 10 (d :: ds))); split; discriminate.
Qed.

(* ===================================================================== *)
(** ** claimsProvider.ts: errors and edge cases *)
(* ===================================================================== *)

Section ClaimsProviderMore.
Context {ClaimsPayload : Type}.
Context (getClaim : ClaimsPayload -> string -> Result Exception string).
Context {Ext : Type}.

Abbreviation Provider := (ClaimsProvider.t ClaimsPayload Ext).
Abbreviation supplyClaims := (ClaimsProvider.supplyClaims getClaim).
Abbreviation _readBaseClaims := (ClaimsProvider._readBaseClaims getClaim).
Abbreviation _readUserInfoClaims := (ClaimsProvider._readUserInfoClaims getClaim).

(** X1.  [supplyClaims] throws exactly when one of its steps throws, and
    then the exception of the first step that does, in the order: supplier
    of custom claims, base claims, user-info claims.  The supplier has run
    in each case. *)
Theorem supplyClaims_throws_first (this : Provider)
    (tokenData userInfoData : ClaimsPayload)
    (w w' : World Ext (ClaimsProvider.Call ClaimsPayload)) (e : Exception) :
  supplyClaims this tokenData userInfoData w = (Thrown e, w') <->
  w' = mkWorld
         (snd (ClaimsProvider.supplyCustomClaims this tokenData userInfoData
                 (ext w)))
         (calls w ++ [ClaimsProvider.SupplyCustomClaims tokenData userInfoData])
  /\
  (fst (ClaimsProvider.supplyCustomClaims this tokenData userInfoData (ext w))
   = Thrown e
   \/
   (exists custom,
       fst (ClaimsProvider.supplyCustomClaims this tokenData userInfoData
              (ext w)) = Returned custom /\
       _readBaseClaims tokenData = Thrown e)
   \/
   (exists custom base,
       fst (ClaimsProvider.supplyCustomClaims this tokenData userInfoData
              (ext w)) = Returned custom /\
       _readBaseClaims tokenData = Returned base /\
       _readUserInfoClaims userInfoData = Thrown e)).
Proof.
  unfold ClaimsProvider.supplyClaims, bind, call, liftResult, ret.
  destruct (ClaimsProvider.supplyCustomClaims this tokenData userInfoData (ext w))
    as [[custom|e0] x]; simpl.
  - destruct (_readBaseClaims tokenData) as [base|e1].
    + destruct (_readUserInfoClaims userInfoData) as [userInfo|e2].
      * split; [discriminate|].
        intros (_ & [H | [(c & _ & H) | (c & b & _ & _ & H)]]); discriminate.
      * split.
        -- intros H. inversion H; subst. split; [reflexivity|].
           right. right. eauto.
        -- intros (-> & [H | [(c & _ & H) | (c & b & _ & _ & H)]]);
             try discriminate. now inversion H.
    + split.
      * intros H. inversion H; subst. split; [reflexivity|]. right. left. eauto.
      * intros (-> & [H | [(c & _ & H) | (c & b & _ & H & _)]]);
          try discriminate. now inversion H.
  - split.
    + intros H. inversion H; subst. auto.
    + intros (-> & [H | [(c & H & _) | (c & b & H & _)]]);
        try discriminate. now inversion H.
Qed.

(** An exception equals the first of three possible ones. *)
Ltac first_throw :=
  split;
  [ let H := fresh in
    intros H; inversion H; subst; clear H; eauto 10
  | let H := fresh in
    let H1 := fresh in
    let H2 := fresh in
    intros [H | [(? & H1 & H) | (? & ? & H1 & H2 & H)]]; congruence ].

(** X2.  The readers check nothing: [_readBaseClaims] throws exactly when
    [getClaim] throws for [sub], [scope] or [exp], with the exception of the
    first of them in this order, and [_readUserInfoClaims] likewise for
    [given_name], [family_name] and [email]. *)
Theorem readers_throw_first (data : ClaimsPayload) (e : Exception) :
  (_readBaseClaims data = Thrown e <->
   getClaim data "sub" = Thrown e \/
   (exists sub, getClaim data "sub" = Returned sub /\
                getClaim data "scope" = Thrown e) \/
   (exists sub scope,
       getClaim data "sub" = Returned sub /\
       getClaim data "scope" = Returned scope /\
       getClaim data "exp" = Thrown e)) /\
  (_readUserInfoClaims data = Thrown e <->
   getClaim data "given_name" = Thrown e \/
   (exists given, getClaim data "given_name" = Returned given /\
                  getClaim data "family_name" = Thrown e) \/
   (exists given family,
       getClaim data "given_name" = Returned given /\
       getClaim data "family_name" = Returned family /\
       getClaim data "email" = Thrown e)).
Proof.
  unfold ClaimsProvider._readBaseClaims, ClaimsProvider._readUserInfoClaims.
  split.
  - destruct (getClaim data "sub") as [sub|e1]; simpl; [|first_throw].
    destruct (getClaim data "scope") as [scope|e2]; simpl; [|first_throw].
    destruct (getClaim data "exp") as [exp|e3]; simpl; first_throw.
  - destruct (getClaim data "given_name") as [given|e1]; simpl;
      [|first_throw].
    destruct (getClaim data "family_name") as [family|e2]; simpl;
      [|first_throw].
    destruct (getClaim data "email") as [mail|e3]; simpl; first_throw.
Qed.

(** What [_readBaseClaims] has read when it returns. *)
Lemma readBaseClaims_returned (data : ClaimsPayload) (base : BaseClaims.t) :
  _readBaseClaims data = Returned base ->
  exists sub scope exp,
    getClaim data "sub" = Returned sub /\
    getClaim data "scope" = Returned scope /\
    getClaim data "exp" = Returned exp /\
    base = BaseClaims.mk sub (JS.split scope " ") (JS.parseInt exp 10).
Proof.
  unfold ClaimsProvider._readBaseClaims.
  destruct (getClaim data "sub") as [sub|]; simpl; [|discriminate].
  destruct (getClaim data "scope") as [scope|]; simpl; [|discriminate].
  destruct (getClaim data "exp") as [exp|]; simpl; [|discriminate].
  intros H. inversion H. eauto 10.
Qed.

(** X3.  The scopes of base claims are never empty: there is one scope more
    than there are spaces in the [scope] claim, so that an empty claim gives
    the one scope that is the empty string, and two spaces in a row give an
    empty scope between them. *)
Theorem scopes_one_more_than_spaces (data : ClaimsPayload)
    (base : BaseClaims.t) (scope : string) :
  _readBaseClaims data = Returned base ->
  getClaim data "scope" = Returned scope ->
  length (BaseClaims.scopes base) = S (Text.count scope " ") /\
  BaseClaims.scopes base <> [] /\
  (scope = EmptyString -> BaseClaims.scopes base = [EmptyString]).
Proof.
  intros Hread Hscope.
  apply readBaseClaims_returned in Hread
    as (sub & scope' & exp & _ & Hs & _ & ->).
  rewrite Hscope in Hs. inversion Hs; subst scope'. simpl.
  split; [apply split_length|]. split; [apply split_not_nil|].
  intros ->. reflexivity.
Qed.

(** X4.  For an [exp] claim written in decimal digits, below 2^53, the
    expiry of the base claims is this number, exactly. *)
Theorem expiry_of_decimal_exp (data : ClaimsPayload) (base : BaseClaims.t)
    (exp : string) (ds : list N) :
  _readBaseClaims data = Returned base ->
  getClaim data "exp" = Returned exp ->
  exp <> EmptyString ->
  JS.decimalDigits exp = Some ds ->
  (JS.mathInt 10 ds < 2 ^ 53)%N ->
  BaseClaims.expiry base = JS.Finite false (JS.mathInt 10 ds).
Proof.
  intros Hread Hexp Hne Hds Hsmall.
  apply readBaseClaims_returned in Hread
    as (sub & scope & exp' & _ & _ & He & ->).
  rewrite Hexp in He. inversion He; subst exp'. simpl.
  now apply parseInt_decimal.
Qed.

(** X5.  [_readBaseClaims] does not check the [exp] claim: it returns base
    claims for every string, and their expiry is [NaN] exactly when no
    decimal digit comes after the leading white space and the sign of the
    claim; an empty claim is such a one. *)
Theorem expiry_NaN_unchecked (data : ClaimsPayload) (sub scope exp : string) :
  getClaim data "sub" = Returned sub ->
  getClaim data "scope" = Returned scope ->
  getClaim data "exp" = Returned exp ->
  exists base,
    _readBaseClaims data = Returned base /\
    (BaseClaims.expiry base = JS.NaN <->
     Text.startsWithDigit (snd (JS.stripSign (JS.trimStart exp))) = false) /\
    (exp = EmptyString -> BaseClaims.expiry base = JS.NaN).
Proof.
  intros Hsub Hscope Hexp.
  exists (BaseClaims.mk sub (JS.split scope " ") (JS.parseInt exp 10)).
  split.
  - unfold ClaimsProvider._readBaseClaims. now rewrite Hsub, Hscope, Hexp.
  - simpl. split; [apply parseInt_NaN_iff|]. intros ->. reflexivity.
Qed.

(** X6.  With the provider of the class itself, [supplyClaims] is a
    function of the two payloads alone: it leaves the world outside as it
    is, and the claims it returns have the two parts read and empty custom
    claims. *)
Theorem supplyClaims_of_base_provider
    (tokenData userInfoData : ClaimsPayload)
    (w : World Ext (ClaimsProvider.Call ClaimsPayload)) :
  supplyClaims ClaimsProvider.base tokenData userInfoData w
  = (let? base := _readBaseClaims tokenData in
     let? userInfo := _readUserInfoClaims userInfoData in
     Returned (ApiClaims.mk base userInfo (∅ : CustomClaims.t)),
     mkWorld (ext w)
       (calls w ++ [ClaimsProvider.SupplyCustomClaims tokenData userInfoData])).
Proof.
  unfold ClaimsProvider.supplyClaims, bind, call, liftResult, ret. simpl.
  destruct (_readBaseClaims tokenData) as [base|e]; simpl; [|reflexivity].
  destruct (_readUserInfoClaims userInfoData) as [userInfo|e]; reflexivity.
Qed.

End ClaimsProviderMore.

(* ===================================================================== *)
(** ** jsonFileReader.ts: an exception that is [undefined] or [null] *)
(* ===================================================================== *)

Section JsonFileReaderMore.
Context {Ext Buffer : Type}.
Context (fs_readFile : string -> External Ext JS.value Buffer).
Context (Buffer_toString : Buffer -> Result JS.value string).
Context (JSON_parse : string -> Result JS.value JS.value).
Context (fileReadError : string).

(** X7.  The [catch] block of [readData] reads [e.stack] before anything
    else.  When the platform rejects the read with [undefined] or [null],
    this read throws, and [readData] throws a [TypeError] in place of the
    server error. *)
Theorem readData_nullish_rejection (filePath : string)
    (w : World Ext JsonFileReader.Call) (e : JS.value) (x : Ext) :
  fs_readFile filePath (ext w) = (Thrown e, x) ->
  e = JS.Undefined \/ e = JS.Null ->
  exists typeError,
    JS.instanceofError typeError = true /\
    JsonFileReader.readData fs_readFile Buffer_toString JSON_parse
      fileReadError filePath w
    = (Thrown (JsThrown typeError),
       mkWorld x (calls w ++ [JsonFileReader.ReadFile filePath])%list).
Proof.
  intros Hread He.
  destruct (readData_catch_nullish fileReadError e He) as (te & Hte & Hc).
  exists te. split; [exact Hte|].
  unfold JsonFileReader.readData, tryCatch, bind, call, liftResult.
  rewrite Hread. now rewrite Hc.
Qed.

End JsonFileReaderMore.

(* ===================================================================== *)
(** ** The lambda of the company transactions: edge cases *)
(* ===================================================================== *)

Section GetCompanyTransactionsMore.
Context {Ext Service Companies : Type}.
Context (container_get : External Ext Exception Service).
Context (getCompanyTransactions :
           Service -> JS.number -> External Ext Exception Companies).
Context (invalidCompanyId : string).

Abbreviation baseHandler :=
  (GetCompanyTransactions.baseHandler
     container_get getCompanyTransactions invalidCompanyId).

(** The handler looks at the parameter [id] through [parseInt] alone. *)
Lemma baseHandler_depends_on_parse (params params' : gmap string string)
    (w : World Ext (GetCompanyTransactions.Call Service)) :
  JS.parseInt (GetCompanyTransactions.idToString (params !! "id")) 10
  = JS.parseInt (GetCompanyTransactions.idToString (params' !! "id")) 10 ->
  baseHandler (GetCompanyTransactions.mkEvent (Some params)) w
  = baseHandler (GetCompanyTransactions.mkEvent (Some params')) w.
Proof.
  intros H. unfold GetCompanyTransactions.baseHandler, bind. simpl.
  unfold ret. cbv beta iota. now rewrite H.
Qed.

(** X8.  An event without path parameters makes the handler throw a
    [TypeError], not the client error with status 400; the service is
    neither resolved nor called. *)
Theorem baseHandler_without_pathParameters
    (w : World Ext (GetCompanyTransactions.Call Service)) :
  exists typeError,
    JS.instanceofError typeError = true /\
    baseHandler (GetCompanyTransactions.mkEvent None) w
    = (Thrown (JsThrown typeError), w).
Proof.
  eexists. split; [|reflexivity]. reflexivity.
Qed.

(** X9.  Path parameters without the parameter [id] make the handler
    throw the client error with status 400 and the code
    [invalidCompanyId]; the service is neither resolved nor called. *)
Theorem baseHandler_without_id (params : gmap string string)
    (w : World Ext (GetCompanyTransactions.Call Service)) :
  params !! "id" = None ->
  baseHandler (GetCompanyTransactions.mkEvent (Some params)) w
  = (Thrown (ClientErrorEx
               (ClientError.mk 400 invalidCompanyId
                  "The company id must be a positive numeric integer")),
     w).
Proof.
  intros H. unfold GetCompanyTransactions.baseHandler, bind. simpl.
  unfold ret. cbv beta iota. rewrite H. reflexivity.
Qed.

(** X10.  The handler reads the leading number of the parameter [id] and
    nothing more: white space before the digits and anything that does not
    begin with a digit after them change nothing.  The handler treats such
    a parameter as it treats the digits alone. *)
Theorem baseHandler_reads_leading_number
    (params params' : gmap string string) (ws d rest : string)
    (w : World Ext (GetCompanyTransactions.Call Service)) :
  params !! "id" = Some (ws ++ (d ++ rest)) ->
  params' !! "id" = Some d ->
  Text.allWhiteSpace ws = true ->
  d <> EmptyString ->
  (exists ds, JS.decimalDigits d = Some ds) ->
  Text.startsWithDigit rest = false ->
  baseHandler (GetCompanyTransactions.mkEvent (Some params)) w
  = baseHandler (GetCompanyTransactions.mkEvent (Some params')) w.
Proof.
  intros Hid Hid' Hws Hne Hd Hrest.
  apply baseHandler_depends_on_parse. rewrite Hid, Hid'. simpl.
  rewrite parseInt_skips_whitespace by assumption.
  now apply parseInt_ignores_rest.
Qed.

(** X11.  The check of the handler lets [Infinity] through: for a
    parameter so long that [parseInt] gives [Infinity], the handler
    resolves the service and calls it with [Infinity]. *)
Theorem baseHandler_accepts_Infinity (params : gmap string string)
    (w : World Ext (GetCompanyTransactions.Call Service)) :
  JS.parseInt (GetCompanyTransactions.idToString (params !! "id")) 10
  = JS.Infinity false ->
  baseHandler (GetCompanyTransactions.mkEvent (Some params)) w
  = match container_get (ext w) with
    | (Thrown e, x) =>
        (Thrown e,
         mkWorld x (calls w ++ [GetCompanyTransactions.ContainerGet])%list)
    | (Returned service, x) =>
        (match fst (getCompanyTransactions service (JS.Infinity false) x) with
         | Returned companies =>
             Returned (GetCompanyTransactions.objectResponse 200 companies)
         | Thrown e => Thrown e
         end,
         mkWorld (snd (getCompanyTransactions service (JS.Infinity false) x))
           (calls w ++
            [GetCompanyTransactions.ContainerGet;
             GetCompanyTransactions.ServiceGetCompanyTransactions service
               (JS.Infinity false)])%list)
    end.
Proof.
  intros H. unfold GetCompanyTransactions.baseHandler, bind. simpl.
  unfold ret, call. cbv beta iota. rewrite H. simpl.
  destruct (container_get (ext w)) as [[service|e] x]; [|reflexivity].
  simpl.
  destruct (getCompanyTransactions service (JS.Infinity false) x)
    as [[companies|e] x']; simpl; rewrite <- app_assoc; reflexivity.
Qed.

(** X12.  In every run the handler makes no call, or the resolution of the
    service alone, or the resolution and then one call of the service that
    the resolution returned.  When it makes no call it has thrown, and the
    world outside is as it was. *)
Theorem baseHandler_calls
    (event : GetCompanyTransactions.APIGatewayEvent)
    (w : World Ext (GetCompanyTransactions.Call Service)) :
  let r := fst (baseHandler event w) in
  let w' := snd (baseHandler event w) in
  (calls w' = calls w /\ ext w' = ext w /\ exists e, r = Thrown e)
  \/
  (calls w' = (calls w ++ [GetCompanyTransactions.ContainerGet])%list /\
   exists e, container_get (ext w) = (Thrown e, ext w') /\ r = Thrown e)
  \/
  (exists service x id,
      container_get (ext w) = (Returned service, x) /\
      calls w'
      = (calls w ++
         [GetCompanyTransactions.ContainerGet;
          GetCompanyTransactions.ServiceGetCompanyTransactions service id])
          %list /\
      ext w' = snd (getCompanyTransactions service id x)).
Proof.
  destruct event as [[params|]].
  - unfold GetCompanyTransactions.baseHandler, bind. simpl.
    unfold ret, throw, call. cbv beta iota.
    destruct (JS.isNaN _ || JS.le _ JS.zero).
    + left. simpl. eauto.
    + destruct (container_get (ext w)) as [[service|e] x] eqn:Hget.
      * right. right. cbv beta iota. cbn [ext calls].
        match goal with
        | |- context [getCompanyTransactions service ?i x] =>
            exists service, x, i;
            destruct (getCompanyTransactions service i x) as [[c|e] x']
        end; simpl; rewrite <- app_assoc; auto.
      * right. left. simpl. eauto.
  - left. simpl. eauto.
Qed.

End GetCompanyTransactionsMore.

(* ===================================================================== *)
(** ** middlewareHelper.ts: the two handlers side by side *)
(* ===================================================================== *)

Section MiddlewareHelperMore.
Import MiddlewareHelper.
Context {Ext : Type}.
Context (cors : ICorsOptions -> Middy.Middleware Ext).
Context (exceptionMiddleware : Middy.Middleware Ext).
Context (operation : JS.value -> JS.value -> External Ext Exception JS.value).

(** The async function of [enrichAuthOperation], run. *)
Lemma authOperation_run (event context : JS.value) (w : World Ext Call) :
  authOperation operation event context w
  = (fst (operation event context (ext w)),
     mkWorld (snd (operation event context (ext w)))
       (calls w ++
        [ConsoleLog (JS.Str "*** DEBUG: RUNNING AUTHORIZER");
         Operation event context])%list).
Proof.
  unfold authOperation, console_log, bind, call. cbn [ext calls].
  destruct (operation event context (ext w)) as [r x]. cbn [fst snd].
  rewrite <- app_assoc. reflexivity.
Qed.

Lemma enrichAuthOperation_instance (this : t) (m : Middy.t Ext Call) :
  enrichAuthOperation cors exceptionMiddleware operation this = Returned m ->
  Middy.handler m = authOperation operation /\
  Middy.beforeMiddlewares m
  = (Middy.hooks (Middy.before (cors (_corsConfig this)))
       ++ Middy.hooks (Middy.before exceptionMiddleware))%list /\
  Middy.afterMiddlewares m
  = (Middy.hooks (Middy.after exceptionMiddleware)
       ++ Middy.hooks (Middy.after (cors (_corsConfig this))))%list /\
  Middy.errorMiddlewares m
  = (Middy.hooks (Middy.onError (cors (_corsConfig this)))
       ++ Middy.hooks (Middy.onError exceptionMiddleware))%list.
Proof.
  unfold enrichAuthOperation, Middy.use, Middy.middy, rbind.
  destruct (cors (_corsConfig this)) as [[b1|] [a1|] [e1|]];
    destruct exceptionMiddleware as [[b2|] [a2|] [e2|]]; simpl;
    intros H; inversion H; subst; simpl; auto.
Qed.

(** What follows the function depends on the hooks alone. *)
Lemma phases_of_same_hooks (m m' : Middy.t Ext Call) :
  Middy.afterMiddlewares m = Middy.afterMiddlewares m' ->
  Middy.errorMiddlewares m = Middy.errorMiddlewares m' ->
  (forall e h x, Middy.errorHandler m e h x = Middy.errorHandler m' e h x) /\
  (forall h x, Middy.afterPhase m h x = Middy.afterPhase m' h x).
Proof.
  intros Ha He.
  assert (H : forall e h x,
             Middy.errorHandler m e h x = Middy.errorHandler m' e h x)
    by (intros; unfold Middy.errorHandler; now rewrite He).
  split; [exact H|].
  intros h x. unfold Middy.afterPhase. rewrite Ha.
  destruct (Middy.runMiddlewares (Middy.afterMiddlewares m') h x)
    as [[h' [e|]] x']; [apply H | reflexivity].
Qed.

(** X13.  The two handlers have the same hooks.  When the [before] hooks
    pass, the handler of [enrichAuthOperation] calls its operation once,
    after one line on the console, whatever the event holds.  For an event
    with truthy claims the handler of [enrichApiOperation] calls the
    operation with the same arguments, after five lines on the console,
    gives the same result and leaves the same state outside.  For an event
    whose claims are not truthy it writes its five lines and does not call
    the operation, and its result is what the [after] hooks make of
    [undefined]. *)
Theorem auth_and_api_handlers (this : t) (mAuth mApi : Middy.t Ext Call)
    (event context : JS.value) (w : World Ext Call) :
  enrichAuthOperation cors exceptionMiddleware operation this = Returned mAuth ->
  enrichApiOperation cors exceptionMiddleware operation this = Returned mApi ->
  let started :=
    Middy.runMiddlewares (Middy.beforeMiddlewares mAuth)
      (Middy.mkInstance event context JS.Null None) (ext w) in
  let h1 := fst (fst started) in
  let x1 := snd started in
  let auth := Middy.invoke mAuth event context w in
  let api := Middy.invoke mApi event context w in
  Middy.beforeMiddlewares mApi = Middy.beforeMiddlewares mAuth /\
  Middy.afterMiddlewares mApi = Middy.afterMiddlewares mAuth /\
  Middy.errorMiddlewares mApi = Middy.errorMiddlewares mAuth /\
  match snd (fst started) with
  | Some e =>
      calls (snd auth) = calls w /\ calls (snd api) = calls w /\
      fst api = fst auth /\ ext (snd api) = ext (snd auth)
  | None =>
      calls (snd auth)
      = (calls w ++
         [ConsoleLog (JS.Str "*** DEBUG: RUNNING AUTHORIZER");
          Operation (Middy.event h1) context])%list /\
      match JS.getProp (Middy.event h1) "claims" with
      | inl typeError =>
          calls (snd api) = (calls w ++ firstLines context)%list
      | inr claims =>
          if JS.truthy claims then
            calls (snd api)
            = (calls w ++ debugLines context claims
                 ++ [Operation (Middy.event h1) context])%list /\
            fst api = fst auth /\ ext (snd api) = ext (snd auth)
          else
            calls (snd api) = (calls w ++ debugLines context claims)%list /\
            (fst api, ext (snd api))
            = Middy.afterPhase mApi (Middy.setResponse h1 JS.Undefined) x1
      end
  end.
Proof.
  intros HmAuth HmApi.
  destruct (enrichAuthOperation_instance this mAuth HmAuth)
    as (Hh1 & Hb1 & Ha1 & He1).
  destruct (enrichApiOperation_instance cors exceptionMiddleware operation
              this mApi HmApi) as (Hh2 & Hb2 & Ha2 & He2).
  assert (Hb : Middy.beforeMiddlewares mApi = Middy.beforeMiddlewares mAuth)
    by congruence.
  assert (Ha : Middy.afterMiddlewares mApi = Middy.afterMiddlewares mAuth)
    by congruence.
  assert (He : Middy.errorMiddlewares mApi = Middy.errorMiddlewares mAuth)
    by congruence.
  destruct (phases_of_same_hooks mApi mAuth Ha He) as [Herr Hafter].
  intros started h1 x1 auth api.
  split; [exact Hb|]. split; [exact Ha|]. split; [exact He|].
  subst auth api h1 x1. unfold Middy.invoke.
  rewrite Hb, Hh1, Hh2. fold started.
  destruct started as [[h1 [e|]] x1]; cbn [fst snd].
  - rewrite Herr.
    destruct (Middy.errorHandler mAuth e h1 x1) as [r x].
    cbn [fst snd ext calls]. auto.
  - rewrite authOperation_run, apiOperation_run. cbn [ext calls].
    split.
    + destruct (operation (Middy.event h1) context x1) as [[v|e] x2];
        cbn [fst snd]; cbv beta iota; cbn [ext calls].
      * destruct (Middy.afterPhase mAuth (Middy.setResponse h1 v) x2).
        reflexivity.
      * destruct (Middy.errorHandler mAuth e (Middy.setResponse h1 JS.Null) x2).
        reflexivity.
    + destruct (JS.getProp (Middy.event h1) "claims") as [typeError|claims].
      * cbv beta iota. cbn [ext calls].
        destruct (Middy.errorHandler mApi (JsThrown typeError)
                    (Middy.setResponse h1 JS.Null) x1).
        reflexivity.
      * destruct (JS.truthy claims).
        -- destruct (operation (Middy.event h1) context x1) as [[v|e] x2];
             cbn [fst snd]; cbv beta iota; cbn [ext calls].
           ++ rewrite Hafter.
              destruct (Middy.afterPhase mAuth (Middy.setResponse h1 v) x2).
              cbn [fst snd ext calls]. auto.
           ++ rewrite Herr.
              destruct (Middy.errorHandler mAuth e
                          (Middy.setResponse h1 JS.Null) x2).
              cbn [fst snd ext calls]. auto.
        -- cbv beta iota. cbn [ext calls].
           destruct (Middy.afterPhase mApi (Middy.setResponse h1 JS.Undefined)
                       x1).
           cbn [fst snd ext calls]. auto.
Qed.

End MiddlewareHelperMore.

(* ===================================================================== *)
(** ** baseCompositionRoot.ts: what [register] leaves in the container *)
(* ===================================================================== *)

Section CompositionRootMore.
Import Container.

(** X14.  After [register] on a new container every identifier of the base
    types resolves, now and after any resolutions: [get] returns. *)
Theorem register_resolves_all (this : BaseCompositionRoot.t) (st : State)
    (ids : list BASETYPES.t) (id : BASETYPES.t) :
  bindings st = [] ->
  exists v st',
    get id (resolveAll ids (BaseCompositionRoot.register this st))
    = (Returned v, st').
Proof.
  destruct st as [n cs bs]. intros Hnew. simpl in Hnew. subst bs.
  pose proof (resolveAll_bindings ids
                (BaseCompositionRoot.register this (mkState n cs []))) as Hb.
  destruct (resolveAll ids (BaseCompositionRoot.register this (mkState n cs [])))
    as [n' cs' bs'].
  simpl in Hb. subst bs'.
  destruct id; eexists; eexists; reflexivity.
Qed.

(** X15.  [register] is to be called once.  After two calls on a new
    container every identifier has two bindings and no identifier
    resolves: [get] throws for the ambiguous match; and two instances of
    [JwksRetriever] have been constructed. *)
Theorem register_twice (this : BaseCompositionRoot.t) (st : State)
    (id : BASETYPES.t) :
  bindings st = [] ->
  let st2 := BaseCompositionRoot.register this
               (BaseCompositionRoot.register this st) in
  get id st2 = (Thrown AmbiguousMatch, st2) /\
  length (bindingsOf id st2) = 2 /\
  length (jwksRetrievers st2) = length (jwksRetrievers st) + 2.
Proof.
  destruct st as [n cs bs]. intros Hnew. simpl in Hnew. subst bs.
  intros st2. split; [|split].
  - destruct id; reflexivity.
  - destruct id; reflexivity.
  - unfold st2, jwksRetrievers. simpl.
    rewrite !List.filter_app, !length_app. simpl. lia.
Qed.

(** X16.  The four objects that [register] binds in place of the objects
    of a request, and the [JwksRetriever], are five different objects; and
    the resolution of each of the four returns its object every time and
    leaves the state as it is. *)
Theorem register_placeholders (this : BaseCompositionRoot.t) (st : State) :
  bindings st = [] ->
  exists logEntry baseClaims userInfoClaims customClaims jwksRetriever,
    NoDup [logEntry; baseClaims; userInfoClaims; customClaims; jwksRetriever] /\
    constructed (BaseCompositionRoot.register this st)
    = (constructed st ++ [(JwksRetriever, jwksRetriever)])%list /\
    forall ids,
      let st' := resolveAll ids (BaseCompositionRoot.register this st) in
      get BASETYPES.LogEntry st' = (Returned (Some logEntry), st') /\
      get BASETYPES.BaseClaims st' = (Returned (Some baseClaims), st') /\
      get BASETYPES.UserInfoClaims st' = (Returned (Some userInfoClaims), st') /\
      get BASETYPES.CustomClaims st' = (Returned (Some customClaims), st').
Proof.
  destruct st as [n cs bs]. intros Hnew. simpl in Hnew. subst bs.
  exists n, (1 + n), (2 + n), (3 + n), (4 + n).
  split; [|split; [reflexivity|]].
  - repeat (apply NoDup_cons; split;
            [rewrite !list_elem_of_In; simpl; lia|]).
    apply NoDup_nil. exact I.
  - intros ids st'.
    pose proof (resolveAll_bindings ids
                  (BaseCompositionRoot.register this (mkState n cs []))) as Hb.
    fold st' in Hb. destruct st' as [n' cs' bs'].
    simpl in Hb. subst bs'. repeat split.
Qed.

(** X17.  [register] uses two fields of the composition root, the proxy
    and the OAuth configuration: two roots that agree on them leave the
    same state. *)
Theorem register_uses_proxy_and_oauth (this this' : BaseCompositionRoot.t)
    (st : State) :
  BaseCompositionRoot._httpProxy this = BaseCompositionRoot._httpProxy this' ->
  BaseCompositionRoot._oauthConfiguration this
  = BaseCompositionRoot._oauthConfiguration this' ->
  BaseCompositionRoot.register this st = BaseCompositionRoot.register this' st.
Proof.
  intros Hp Ho.
  unfold BaseCompositionRoot.register,
    BaseCompositionRoot._registerOAuthDependencies,
    BaseCompositionRoot._registerClaimsDependencies,
    BaseCompositionRoot._registerBaseDependencies.
  simpl. now rewrite Hp, Ho.
Qed.

(** X18.  What [useHttpProxy] and [useOAuth] give to the composition root
    is what the container hands out after [register], in whichever order
    the two were called and whatever is resolved before. *)
Theorem builder_to_container (this : BaseCompositionRoot.t) (st : State)
    (proxy configuration : Ref) (ids : list BASETYPES.t) :
  bindings st = [] ->
  let resolve root id :=
    fst (get id (resolveAll ids (BaseCompositionRoot.register root st))) in
  let root1 := BaseCompositionRoot.useOAuth configuration
                 (BaseCompositionRoot.useHttpProxy proxy this) in
  let root2 := BaseCompositionRoot.useHttpProxy proxy
                 (BaseCompositionRoot.useOAuth configuration this) in
  resolve root1 BASETYPES.HttpProxy = Returned (Some proxy) /\
  resolve root1 BASETYPES.OAuthConfiguration = Returned (Some configuration) /\
  resolve root2 BASETYPES.HttpProxy = Returned (Some proxy) /\
  resolve root2 BASETYPES.OAuthConfiguration = Returned (Some configuration).
Proof.
  destruct st as [n cs bs]. intros Hnew. simpl in Hnew. subst bs.
  intros resolve root1 root2.
  assert (H : forall root id v,
             In (id, ConstantValue v)
                (bindings (BaseCompositionRoot.register root (mkState n cs []))) ->
             length (bindingsOf id
                       (BaseCompositionRoot.register root (mkState n cs []))) = 1 ->
             resolve root id = Returned v).
  { intros root id v Hin Hlen. unfold resolve.
    pose proof (resolveAll_bindings ids
                  (BaseCompositionRoot.register root (mkState n cs []))) as Hb.
    destruct (resolveAll ids
                (BaseCompositionRoot.register root (mkState n cs [])))
      as [n' cs' bs'].
    simpl in Hb. subst bs'. simpl in Hin.
    destruct Hin as [E|[E|[E|[E|[E|[E|[E|[E|[E|[E|[]]]]]]]]]]];
      inversion E; subst; reflexivity. }
  repeat split; apply H; simpl; auto 10.
Qed.

End CompositionRootMore.

(* ===================================================================== *)
(** ** lambdaChildProcess.ts: the output of the lambda *)
(* ===================================================================== *)

Section LambdaChildProcessFacts.
Import LambdaChildProcess.

Lemma append_nil_l (s : string) : (EmptyString ++ s)%string = s.
Proof. reflexivity. Qed.

Lemma append_cons (c : ascii) (s t : string) :
  (String c s ++ t)%string = String c (s ++ t).
Proof. reflexivity. Qed.

Lemma append_assoc (s t u : string) :
  ((s ++ t) ++ u)%string = (s ++ (t ++ u))%string.
Proof.
  induction s as [|c s IH]; [reflexivity|].
  rewrite !append_cons. now rewrite IH.
Qed.

Lemma append_nil_r (s : string) : (s ++ EmptyString)%string = s.
Proof.
  induction s as [|c s IH]; [reflexivity|]. rewrite append_cons. now rewrite IH.
Qed.

(** The loop adds to what [responseJson] holds. *)
Lemma every_line_acc (lines : list string) (acc : string) :
  every_line lines acc = (acc ++ every_line lines EmptyString)%string.
Proof.
  revert acc. induction lines as [|line rest IH]; intros acc; simpl.
  - now rewrite append_nil_r.
  - rewrite append_nil_l. destruct (String.eqb line "}"); [reflexivity|].
    rewrite IH. rewrite (IH (line ++ String LF EmptyString)%string).
    now rewrite append_assoc.
Qed.

(** Without a line that is a closing brace the loop takes every line. *)
Lemma every_line_without_brace (lines : list string) :
  Forall (fun line => line <> "}") lines ->
  every_line lines EmptyString = unlines lines.
Proof.
  induction lines as [|line rest IH]; intros Hall; simpl; [reflexivity|].
  inversion Hall as [|? ? Hline Hrest]; subst.
  rewrite append_nil_l.
  destruct (String.eqb line "}") eqn:Hb;
    [apply String.eqb_eq in Hb; contradiction|].
  rewrite every_line_acc, (IH Hrest). rewrite append_assoc. reflexivity.
Qed.

(** The loop stops after the first line that is a closing brace. *)
Lemma every_line_with_brace (pre post : list string) :
  Forall (fun line => line <> "}") pre ->
  every_line (pre ++ "}" :: post) EmptyString
  = (unlines pre ++ String "}" (String LF EmptyString))%string.
Proof.
  induction pre as [|line rest IH]; intros Hall; simpl.
  - reflexivity.
  - inversion Hall as [|? ? Hline Hrest]; subst.
    rewrite append_nil_l.
    destruct (String.eqb line "}") eqn:Hb;
      [apply String.eqb_eq in Hb; contradiction|].
    rewrite every_line_acc, (IH Hrest). rewrite !append_assoc. reflexivity.
Qed.

Lemma isLine_cons (c : ascii) (s : string) :
  isLine (String c s) = true ->
  Ascii.eqb c LF = false /\ Ascii.eqb c CR = false /\ isLine s = true.
Proof.
  unfold isLine. simpl. intros H. apply andb_prop in H as [H1 H2].
  apply negb_true_iff in H1, H2.
  apply orb_false_elim in H1 as [H1 H1'], H2 as [H2 H2'].
  rewrite H1', H2'. auto.
Qed.

Lemma splitLines_cons_line (c : ascii) (r : string) :
  Ascii.eqb c LF = false -> Ascii.eqb c CR = false ->
  splitLines (String c r) = consHead c (splitLines r).
Proof.
  intros H1 H2. simpl. rewrite H1, H2. destruct r; reflexivity.
Qed.

Lemma splitLines_line (l : string) :
  isLine l = true -> splitLines l = [l].
Proof.
  induction l as [|c r IH]; [reflexivity|].
  intros H. apply isLine_cons in H as (H1 & H2 & Hr).
  rewrite splitLines_cons_line by assumption. now rewrite (IH Hr).
Qed.

Lemma splitLines_line_LF (l s : string) :
  isLine l = true ->
  splitLines (l ++ String LF s) = l :: splitLines s.
Proof.
  induction l as [|c r IH]; [reflexivity|].
  intros H. apply isLine_cons in H as (H1 & H2 & Hr).
  rewrite append_cons, splitLines_cons_line by assumption.
  now rewrite (IH Hr).
Qed.

Lemma splitLines_line_CRLF (l s : string) :
  isLine l = true ->
  splitLines (l ++ String CR (String LF s)) = l :: splitLines s.
Proof.
  induction l as [|c r IH]; [reflexivity|].
  intros H. apply isLine_cons in H as (H1 & H2 & Hr).
  rewrite append_cons, splitLines_cons_line by assumption.
  now rewrite (IH Hr).
Qed.

(** X19.  Lines that hold no line feed and no carriage return, joined by
    line feeds or by carriage return and line feed, are split into the same
    lines again. *)
Theorem splitLines_of_joined (lines : list string) :
  lines <> [] ->
  Forall (fun line => isLine line = true) lines ->
  splitLines (JS.join lines LF) = lines /\
  splitLines (joinCRLF lines) = lines.
Proof.
  induction lines as [|line rest IH]; [congruence|].
  intros _ Hall. inversion Hall as [|? ? Hline Hrest]; subst.
  destruct rest as [|next rest].
  - simpl. split; now apply splitLines_line.
  - destruct IH as [IH1 IH2]; [discriminate | assumption |].
    split.
    + change (JS.join (line :: next :: rest) LF)
        with (line ++ String LF (JS.join (next :: rest) LF))%string.
      rewrite splitLines_line_LF by assumption. now rewrite IH1.
    + change (joinCRLF (line :: next :: rest))
        with (line ++ String CR (String LF (joinCRLF (next :: rest))))%string.
      rewrite splitLines_line_CRLF by assumption. now rewrite IH2.
Qed.

(** X20.  When the output has a line that is a closing brace, the text to
    parse is the lines up to the first such line, each with a line feed
    after it, whatever follows that line and whether the lines end in a
    line feed or in carriage return and line feed. *)
Theorem responseJson_stops_at_brace (pre post : list string) :
  Forall (fun line => isLine line = true) pre ->
  Forall (fun line => isLine line = true) post ->
  Forall (fun line => line <> "}") pre ->
  responseJson (JS.join (pre ++ "}" :: post) LF)
  = (unlines pre ++ String "}" (String LF EmptyString))%string /\
  responseJson (joinCRLF (pre ++ "}" :: post))
  = (unlines pre ++ String "}" (String LF EmptyString))%string.
Proof.
  intros Hpre Hpost Hno.
  assert (Hall : Forall (fun line => isLine line = true)
                        (pre ++ "}" :: post)%list).
  { apply Forall_app. split; [assumption|]. constructor; [reflexivity|assumption]. }
  assert (Hne : (pre ++ "}" :: post)%list <> [])
    by (destruct pre; discriminate).
  destruct (splitLines_of_joined _ Hne Hall) as [H1 H2].
  unfold responseJson. rewrite H1, H2.
  split; now apply every_line_with_brace.
Qed.

(** X21.  When no line of the output is a closing brace, the text to parse
    is all of the output, with a line feed after the last line too. *)
Theorem responseJson_without_brace (lines : list string) :
  lines <> [] ->
  Forall (fun line => isLine line = true) lines ->
  Forall (fun line => line <> "}") lines ->
  responseJson (JS.join lines LF) = unlines lines /\
  responseJson (joinCRLF lines) = unlines lines.
Proof.
  intros Hne Hall Hno.
  destruct (splitLines_of_joined _ Hne Hall) as [H1 H2].
  unfold responseJson. rewrite H1, H2.
  split; now apply every_line_without_brace.
Qed.

Section TransformOutput.
Context {Ext : Type}.
Context (JSON_parse : JS.value -> Result Exception JS.value).

(** X22.  [_transformOutput] returns or throws the same for two output
    files that have the same lines up to the first closing brace: what
    Serverless writes after the response, and the kind of line ends, do not
    change the result. *)
Theorem transformOutput_ignores_trailer
    (fs_readFile fs_readFile' : string -> string -> External Ext Exception string)
    (w w' : World Ext Call) (x x' : Ext)
    (pre post post' : list string) :
  fs_readFile "test/output.txt" "utf8" (ext w)
  = (Returned (JS.join (pre ++ "}" :: post) LF), x) ->
  fs_readFile' "test/output.txt" "utf8" (ext w')
  = (Returned (joinCRLF (pre ++ "}" :: post')), x') ->
  Forall (fun line => isLine line = true) pre ->
  Forall (fun line => isLine line = true) post ->
  Forall (fun line => isLine line = true) post' ->
  Forall (fun line => line <> "}") pre ->
  fst (_transformOutput fs_readFile JSON_parse w)
  = fst (_transformOutput fs_readFile' JSON_parse w').
Proof.
  intros Hr Hr' Hpre Hpost Hpost' Hno.
  destruct (responseJson_stops_at_brace pre post Hpre Hpost Hno) as [H1 _].
  destruct (responseJson_stops_at_brace pre post' Hpre Hpost' Hno) as [_ H2].
  unfold _transformOutput, bind, call, liftResult, ret.
  rewrite Hr, Hr', H1, H2.
  destruct (JSON_parse _) as [responseData|e]; [|reflexivity].
  destruct (getProperty responseData "body") as [bodyText|e]; [|reflexivity].
  destruct (JSON_parse bodyText) as [body|e]; [|reflexivity].
  destruct (getProperty responseData "statusCode"); reflexivity.
Qed.

End TransformOutput.

(** X23.  The request that [invoke] gives to the lambda is a [GET] of
    [/api/userinfo] with the access token as bearer token, for all options:
    the method, the path and the path parameters of the options are not
    used.  Two sets of options with the same access token and session give
    the same request, and the command depends on the name of the lambda
    alone. *)
Theorem lambdaInput_uses_token_and_session (o o' : LambdaChildProcessOptions) :
  JS.getProp (lambdaInput o) "httpMethod" = inr (JS.Str "GET") /\
  JS.getProp (lambdaInput o) "path" = inr (JS.Str "/api/userinfo") /\
  (exists headers,
      JS.getProp (lambdaInput o) "headers" = inr headers /\
      JS.getProp headers "authorization"
      = inr (JS.Str ("Bearer " ++ accessToken o))) /\
  (accessToken o = accessToken o' -> sessionId o = sessionId o' ->
   lambdaInput o = lambdaInput o') /\
  (lambdaFunction o = lambdaFunction o' -> slsArguments o = slsArguments o').
Proof.
  repeat split.
  - eexists. split; reflexivity.
  - intros Ht Hs. unfold lambdaInput. now rewrite Ht, Hs.
  - intros Hf. unfold slsArguments. now rewrite Hf.
Qed.

End LambdaChildProcessFacts.

(* ===================================================================== *)
(** ** Examples of the further properties *)
(* ===================================================================== *)

Lemma scopes_one_more_than_spaces_witness :
  ClaimsProvider._readBaseClaims TestData.getClaim TestData.tokenData
  = Returned (BaseClaims.mk TestData.guestUserId
                ["openid"; "profile"; "https://api.authsamples.com/investments"]
                (JS.Finite false 1762099230)) /\
  TestData.getClaim TestData.tokenData "scope" = Returned TestData.tokenScope /\
  length ["openid"; "profile"; "https://api.authsamples.com/investments"]
  = S (Text.count TestData.tokenScope " ").
Proof.
  split; [reflexivity|]. split; [reflexivity|].
  exact (proj1 (scopes_one_more_than_spaces TestData.getClaim
                  TestData.tokenData _ TestData.tokenScope eq_refl eq_refl)).
Defined.

Lemma expiry_of_decimal_exp_witness :
  TestData.getClaim TestData.tokenData "exp" = Returned "1762099230" /\
  JS.decimalDigits "1762099230" = Some [1; 7; 6; 2; 0; 9; 9; 2; 3; 0]%N /\
  (JS.mathInt 10 [1; 7; 6; 2; 0; 9; 9; 2; 3; 0]%N < 2 ^ 53)%N /\
  BaseClaims.expiry
    (BaseClaims.mk TestData.guestUserId
       ["openid"; "profile"; "https://api.authsamples.com/investments"]
       (JS.Finite false 1762099230))
  = JS.Finite false (JS.mathInt 10 [1; 7; 6; 2; 0; 9; 9; 2; 3; 0]%N).
Proof.
  split; [reflexivity|]. split; [reflexivity|].
  assert (Hsmall : (JS.mathInt 10 [1; 7; 6; 2; 0; 9; 9; 2; 3; 0]%N < 2 ^ 53)%N)
    by (vm_compute; reflexivity).
  split; [exact Hsmall|].
  refine (expiry_of_decimal_exp TestData.getClaim TestData.tokenData _
            "1762099230" _ eq_refl eq_refl _ eq_refl Hsmall).
  discriminate.
Defined.

Lemma expiry_NaN_unchecked_witness :
  TestData.getClaim Samples.oddTokenData "exp" = Returned "tomorrow" /\
  exists base,
    ClaimsProvider._readBaseClaims TestData.getClaim Samples.oddTokenData
    = Returned base /\
    BaseClaims.expiry base = JS.NaN /\
    BaseClaims.scopes base = [""].
Proof.
  split; [reflexivity|].
  destruct (expiry_NaN_unchecked TestData.getClaim Samples.oddTokenData
              TestData.guestUserId "" "tomorrow" eq_refl eq_refl eq_refl)
    as (base & Hread & Hnan & _).
  exists base. split; [exact Hread|]. split.
  - apply Hnan. reflexivity.
  - pose proof (scopes_one_more_than_spaces TestData.getClaim
                  Samples.oddTokenData base "" Hread eq_refl) as (_ & _ & H).
    now apply H.
Defined.

Lemma readData_nullish_rejection_witness :
  Samples.rejectingReadFile "data/companies.json" tt = (Thrown JS.Undefined, tt) /\
  exists typeError,
    JsonFileReader.readData Samples.rejectingReadFile TestData.Buffer_toString
      TestData.JSON_parse "file_read_error" "data/companies.json"
      (mkWorld tt [])
    = (Thrown (JsThrown typeError),
       mkWorld tt [JsonFileReader.ReadFile "data/companies.json"]).
Proof.
  split; [reflexivity|].
  destruct (readData_nullish_rejection Samples.rejectingReadFile
              TestData.Buffer_toString TestData.JSON_parse "file_read_error"
              "data/companies.json" (mkWorld tt []) JS.Undefined tt
              eq_refl (or_introl eq_refl)) as (te & _ & H).
  exists te. exact H.
Defined.

Lemma baseHandler_without_id_witness :
  (∅ : gmap string string) !! "id" = None /\
  GetCompanyTransactions.baseHandler
    TestData.container_get TestData.getCompanyTransactions "invalid_company_id"
    (GetCompanyTransactions.mkEvent (Some ∅)) (mkWorld tt [])
  = (Thrown (ClientErrorEx
               (ClientError.mk 400 "invalid_company_id"
                  "The company id must be a positive numeric integer")),
     mkWorld tt []).
Proof.
  split; [reflexivity|].
  exact (baseHandler_without_id TestData.container_get
           TestData.getCompanyTransactions "invalid_company_id" ∅
           (mkWorld tt []) eq_refl).
Defined.

Lemma baseHandler_reads_leading_number_witness :
  GetCompanyTransactions.baseHandler
    TestData.container_get TestData.getCompanyTransactions "invalid_company_id"
    (TestData.transactionsEvent "  2abc") (mkWorld tt [])
  = GetCompanyTransactions.baseHandler
      TestData.container_get TestData.getCompanyTransactions "invalid_company_id"
      (TestData.transactionsEvent "2") (mkWorld tt []).
Proof.
  refine (baseHandler_reads_leading_number TestData.container_get
            TestData.getCompanyTransactions "invalid_company_id"
            {[ "id" := "  2abc" ]} {[ "id" := "2" ]} "  " "2" "abc"
            (mkWorld tt []) eq_refl eq_refl eq_refl _ _ eq_refl).
  - discriminate.
  - exists [2%N]. reflexivity.
Defined.

Lemma baseHandler_accepts_Infinity_witness :
  JS.parseInt Samples.longId 10 = JS.Infinity false /\
  GetCompanyTransactions.baseHandler
    TestData.container_get TestData.getCompanyTransactions "invalid_company_id"
    (TestData.transactionsEvent Samples.longId) (mkWorld tt [])
  = (Thrown (ClientErrorEx
               (ClientError.mk 404 "company_not_found"
                  "Company not found for the user")),
     mkWorld tt
       [GetCompanyTransactions.ContainerGet;
        GetCompanyTransactions.ServiceGetCompanyTransactions tt
          (JS.Infinity false)]).
Proof.
  assert (H : JS.parseInt Samples.longId 10 = JS.Infinity false)
    by (vm_compute; reflexivity).
  split; [exact H|].
  exact (baseHandler_accepts_Infinity TestData.container_get
           TestData.getCompanyTransactions "invalid_company_id"
           {[ "id" := Samples.longId ]} (mkWorld tt []) H).
Defined.

Lemma auth_and_api_handlers_witness :
  exists mAuth mApi,
    MiddlewareHelper.enrichAuthOperation TestData.cors
      TestData.exceptionMiddleware TestData.echoClaims
      TestData.middlewareHelper = Returned mAuth /\
    MiddlewareHelper.enrichApiOperation TestData.cors
      TestData.exceptionMiddleware TestData.echoClaims
      TestData.middlewareHelper = Returned mApi /\
    fst (Middy.invoke mApi TestData.authorizedEvent JS.Null (mkWorld tt []))
    = fst (Middy.invoke mAuth TestData.authorizedEvent JS.Null (mkWorld tt [])).
Proof.
  eexists. eexists. split; [reflexivity|]. split; [reflexivity|].
  match goal with
  | |- fst (Middy.invoke ?mApi _ _ _) = fst (Middy.invoke ?mAuth _ _ _) =>
      pose proof (auth_and_api_handlers TestData.cors
                    TestData.exceptionMiddleware TestData.echoClaims
                    TestData.middlewareHelper mAuth mApi
                    TestData.authorizedEvent JS.Null (mkWorld tt [])
                    eq_refl eq_refl) as (_ & _ & _ & H)
  end.
  exact (proj1 (proj2 (proj2 H))).
Defined.

Lemma register_resolves_all_witness :
  Container.bindings TestData.startState = [] /\
  exists v st',
    Container.get BASETYPES.JwtValidator
      (Container.resolveAll [BASETYPES.JwksRetriever; BASETYPES.LogEntry]
         (BaseCompositionRoot.register TestData.compositionRoot
            TestData.startState))
    = (Returned v, st').
Proof.
  split; [reflexivity|].
  exact (register_resolves_all TestData.compositionRoot TestData.startState
           [BASETYPES.JwksRetriever; BASETYPES.LogEntry]
           BASETYPES.JwtValidator eq_refl).
Defined.

Lemma register_twice_witness :
  Container.bindings TestData.startState = [] /\
  fst (Container.get BASETYPES.JwksRetriever
         (BaseCompositionRoot.register TestData.compositionRoot
            (BaseCompositionRoot.register TestData.compositionRoot
               TestData.startState)))
  = Thrown Container.AmbiguousMatch.
Proof.
  split; [reflexivity|].
  rewrite (proj1 (register_twice TestData.compositionRoot TestData.startState
                    BASETYPES.JwksRetriever eq_refl)).
  reflexivity.
Defined.

Lemma register_placeholders_witness :
  Container.bindings TestData.startState = [] /\
  exists logEntry baseClaims,
    logEntry <> baseClaims /\
    fst (Container.get BASETYPES.LogEntry
           (BaseCompositionRoot.register TestData.compositionRoot
              TestData.startState)) = Returned (Some logEntry) /\
    fst (Container.get BASETYPES.BaseClaims
           (BaseCompositionRoot.register TestData.compositionRoot
              TestData.startState)) = Returned (Some baseClaims).
Proof.
  split; [reflexivity|].
  destruct (register_placeholders TestData.compositionRoot TestData.startState
              eq_refl) as (l & b & u & c & j & Hnd & _ & Hget).
  exists l, b.
  destruct (Hget []) as (Hl & Hb & _).
  split; [|split].
  - intros ->. apply NoDup_cons in Hnd as [Hnot _].
    apply Hnot. left.
  - simpl in Hl. now rewrite Hl.
  - simpl in Hb. now rewrite Hb.
Defined.

Lemma register_uses_proxy_and_oauth_witness :
  BaseCompositionRoot.register
    (BaseCompositionRoot.withClaimsProvider 7 6 TestData.compositionRoot)
    TestData.startState
  = BaseCompositionRoot.register TestData.compositionRoot TestData.startState.
Proof.
  exact (register_uses_proxy_and_oauth
           (BaseCompositionRoot.withClaimsProvider 7 6 TestData.compositionRoot)
           TestData.compositionRoot TestData.startState eq_refl eq_refl).
Defined.

Lemma builder_to_container_witness :
  Container.bindings TestData.startState = [] /\
  fst (Container.get BASETYPES.HttpProxy
         (Container.resolveAll [BASETYPES.JwtValidator]
            (BaseCompositionRoot.register
               (BaseCompositionRoot.useOAuth 0
                  (BaseCompositionRoot.useHttpProxy 3 BaseCompositionRoot.new))
               TestData.startState)))
  = Returned (Some 3).
Proof.
  split; [reflexivity|].
  exact (proj1 (builder_to_container BaseCompositionRoot.new
                  TestData.startState 3 0 [BASETYPES.JwtValidator] eq_refl)).
Defined.

Lemma splitLines_of_joined_witness :
  Samples.responseLines <> [] /\
  Forall (fun line => LambdaChildProcess.isLine line = true)
         Samples.responseLines /\
  LambdaChildProcess.splitLines
    (LambdaChildProcess.joinCRLF Samples.responseLines)
  = Samples.responseLines.
Proof.
  assert (Hne : Samples.responseLines <> []) by discriminate.
  assert (Hall : Forall (fun line => LambdaChildProcess.isLine line = true)
                        Samples.responseLines)
    by (repeat constructor).
  split; [exact Hne|]. split; [exact Hall|].
  exact (proj2 (splitLines_of_joined Samples.responseLines Hne Hall)).
Defined.

Lemma responseJson_stops_at_brace_witness :
  Forall (fun line => LambdaChildProcess.isLine line = true)
         Samples.responseLines /\
  Forall (fun line => LambdaChildProcess.isLine line = true)
         Samples.trailerLines /\
  Forall (fun line => line <> "}") Samples.responseLines /\
  LambdaChildProcess.responseJson
    (JS.join (Samples.responseLines ++ "}" :: Samples.trailerLines)
       LambdaChildProcess.LF)
  = LambdaChildProcess.responseJson
      (JS.join (Samples.responseLines ++ ["}"]) LambdaChildProcess.LF).
Proof.
  assert (H1 : Forall (fun line => LambdaChildProcess.isLine line = true)
                      Samples.responseLines) by (repeat constructor).
  assert (H2 : Forall (fun line => LambdaChildProcess.isLine line = true)
                      Samples.trailerLines) by (repeat constructor).
  assert (H3 : Forall (fun line => line <> "}") Samples.responseLines)
    by (repeat constructor; discriminate).
  split; [exact H1|]. split; [exact H2|]. split; [exact H3|].
  rewrite (proj1 (responseJson_stops_at_brace Samples.responseLines
                    Samples.trailerLines H1 H2 H3)).
  reflexivity.
Defined.

Lemma responseJson_without_brace_witness :
  Forall (fun line => line <> "}") Samples.responseLines /\
  LambdaChildProcess.responseJson
    (JS.join Samples.responseLines LambdaChildProcess.LF)
  = LambdaChildProcess.unlines Samples.responseLines.
Proof.
  assert (Hne : Samples.responseLines <> []) by discriminate.
  assert (H1 : Forall (fun line => LambdaChildProcess.isLine line = true)
                      Samples.responseLines) by (repeat constructor).
  assert (H3 : Forall (fun line => line <> "}") Samples.responseLines)
    by (repeat constructor; discriminate).
  split; [exact H3|].
  exact (proj1 (responseJson_without_brace Samples.responseLines Hne H1 H3)).
Defined.

Lemma transformOutput_ignores_trailer_witness :
  fst (LambdaChildProcess._transformOutput
         (Samples.outputFile
            (JS.join (Samples.responseLines ++ "}" :: Samples.trailerLines)
               LambdaChildProcess.LF))
         Samples.acceptingParse (mkWorld tt []))
  = fst (LambdaChildProcess._transformOutput
           (Samples.outputFile
              (LambdaChildProcess.joinCRLF (Samples.responseLines ++ ["}"])))
           Samples.acceptingParse (mkWorld tt [])).
Proof.
  refine (transformOutput_ignores_trailer Samples.acceptingParse
            (Samples.outputFile
               (JS.join (Samples.responseLines ++ "}" :: Samples.trailerLines)
                  LambdaChildProcess.LF))
            (Samples.outputFile
               (LambdaChildProcess.joinCRLF (Samples.responseLines ++ ["}"])))
            (mkWorld tt []) (mkWorld tt []) tt tt
            Samples.responseLines Samples.trailerLines []
            eq_refl eq_refl _ _ _ _);
    repeat constructor; discriminate.
Defined.
